(** * Verification of .github/scripts/ai_agent.py (sstbrg/android_dana)

    A shallow embedding of the CI agent script: Python [str] operations,
    the [re] engine on the one pattern the script uses, [pathlib] and the
    POSIX calls it makes, the HTTP round trip of [call_llm], and the
    [main] orchestration, as a state-and-exception monad over a world.

    Python [str] values are modelled as [list ascii], each [ascii] read as
    the Unicode code point U+0000..U+00FF with the same number. *)

From Stdlib Require Import Ascii String List Bool Arith Lia ZArith.
From stdpp Require Import base gmap strings.
Import ListNotations.
Open Scope list_scope.
Set Warnings "-register-all".

Definition pystr := list ascii.
Definition s2l (s : string) : pystr := list_ascii_of_string s.

Definition nl : ascii := "010"%char.

(** ** Python [str] helpers *)

(** [str.isspace] on one character (also the class of [\s] in [re] for
    str patterns): Py_UNICODE_ISSPACE restricted to U+0000..U+00FF. *)
Definition is_space (a : ascii) : bool :=
  let n := nat_of_ascii a in
  ((9 <=? n) && (n <=? 13)) || ((28 <=? n) && (n <=? 32)) || (n =? 133) || (n =? 160).

Definition ascii_eqb (a b : ascii) : bool := if ascii_dec a b then true else false.

Fixpoint prefixb (p s : pystr) : bool :=
  match p, s with
  | [], _ => true
  | a :: p', b :: s' => ascii_eqb a b && prefixb p' s'
  | _ :: _, [] => false
  end.

Fixpoint lstrip (s : pystr) : pystr :=
  match s with
  | a :: s' => if is_space a then lstrip s' else s
  | [] => []
  end.

(** [s.strip()] *)
Definition py_strip (s : pystr) : pystr := rev (lstrip (rev (lstrip s))).

(** [s.startswith(p)] and [s.endswith(p)] *)
Definition py_startswith (s p : pystr) : bool := prefixb p s.
Definition py_endswith (s p : pystr) : bool := prefixb (rev p) (rev s).

(** [s.find(c)] for a one-character needle: index or -1. *)
Fixpoint py_find_char (s : pystr) (c : ascii) : Z :=
  match s with
  | [] => (-1)%Z
  | a :: s' => if ascii_eqb a c then 0%Z
               else let r := py_find_char s' c in if (r <? 0)%Z then r else (r + 1)%Z
  end.

(** Slice bounds as Python normalises them. *)
Definition py_index (len : nat) (k : Z) : nat :=
  if (k <? 0)%Z then Z.to_nat (Z.max 0 (Z.of_nat len + k)) else Nat.min (Z.to_nat k) len.

(** [s[k:]] and [s[:k]] *)
Definition py_slice_from (s : pystr) (k : Z) : pystr := skipn (py_index (length s) k) s.
Definition py_slice_to (s : pystr) (k : Z) : pystr := firstn (py_index (length s) k) s.

(** [s.split(sep)] for a non-empty [sep]: scan left to right, cut at each
    non-overlapping occurrence; [skip] counts characters of a separator
    still to be consumed. *)
Fixpoint split_go (sep s : pystr) (skip : nat) (cur : pystr) : list pystr :=
  match s with
  | [] => [rev cur]
  | c :: s' =>
      match skip with
      | S k => split_go sep s' k cur
      | O => if prefixb sep s then rev cur :: split_go sep s' (length sep - 1) []
             else split_go sep s' 0 (c :: cur)
      end
  end.

Definition py_split (s sep : pystr) : list pystr := split_go sep s 0 [].

(** ** The [re] engine on the constructs of the script's pattern

    A backtracking matcher in continuation-passing style, following the
    order in which [sre] tries alternatives: [RStar true] is a greedy
    single-character repeat (sre REPEAT_ONE: longest run first, then
    giving back one character at a time), [RStar false] the lazy one
    (MIN_REPEAT_ONE: shortest first), [ROpt] a greedy [?], [RBol] the
    [^] anchor under [re.MULTILINE]. *)
Inductive rx :=
| RChar (p : ascii -> bool)
| RLit (s : pystr)
| RSeq (r1 r2 : rx)
| RAlt (r1 r2 : rx)
| RStar (greedy : bool) (p : ascii -> bool)
| ROpt (r : rx)
| RGroup (n : nat) (r : rx)
| RBol.

(** Capture marks: the most recent binding of a group comes first. *)
Definition caps := list (nat * (nat * nat)).

Fixpoint group_span (n : nat) (c : caps) : option (nat * nat) :=
  match c with
  | [] => None
  | (m, sp) :: c' => if Nat.eqb m n then Some sp else group_span n c'
  end.

Fixpoint run_len (p : ascii -> bool) (s : pystr) : nat :=
  match s with
  | a :: s' => if p a then S (run_len p s') else O
  | [] => O
  end.

Section Matcher.
Context {R : Type}.

(** Try [k] at [i+m], [i+m-1], ..., [i]. *)
Fixpoint try_down (k : nat -> caps -> option R) (i : nat) (c : caps) (m : nat) : option R :=
  match k (i + m) c with
  | Some x => Some x
  | None => match m with O => None | S m' => try_down k i c m' end
  end.

(** Try [k] at [j], [j+1], ..., [j+m]. *)
Fixpoint try_up (k : nat -> caps -> option R) (j : nat) (c : caps) (m : nat) : option R :=
  match k j c with
  | Some x => Some x
  | None => match m with O => None | S m' => try_up k (S j) c m' end
  end.

Fixpoint mt (r : rx) (t : pystr) (i : nat) (c : caps) (k : nat -> caps -> option R)
  : option R :=
  match r with
  | RChar p =>
      match nth_error t i with
      | Some a => if p a then k (S i) c else None
      | None => None
      end
  | RLit s => if prefixb s (skipn i t) then k (i + length s) c else None
  | RSeq r1 r2 => mt r1 t i c (fun j c' => mt r2 t j c' k)
  | RAlt r1 r2 =>
      match mt r1 t i c k with
      | Some x => Some x
      | None => mt r2 t i c k
      end
  | RStar true p => try_down k i c (run_len p (skipn i t))
  | RStar false p => try_up k i c (run_len p (skipn i t))
  | ROpt r1 =>
      match mt r1 t i c k with
      | Some x => Some x
      | None => k i c
      end
  | RGroup n r1 => mt r1 t i c (fun j c' => k j ((n, (i, j)) :: c'))
  | RBol =>
      match i with
      | O => k i c
      | S i' => if bool_decide (nth_error t i' = Some nl) then k i c else None
      end
  end.

End Matcher.

(** A match object: start, end, capture marks. *)
Record match_obj := { m_start : nat; m_end : nat; m_caps : caps }.

Fixpoint search_go (r : rx) (t : pystr) (i : nat) (m : nat) : option match_obj :=
  match mt r t i [] (fun j c => Some {| m_start := i; m_end := j; m_caps := c |}) with
  | Some x => Some x
  | None => match m with O => None | S m' => search_go r t (S i) m' end
  end.

(** [re.search(pattern, t, re.MULTILINE)]: start positions 0..len(t). *)
Definition re_search (r : rx) (t : pystr) : option match_obj := search_go r t 0 (length t).

(** [match.group(n)]; [None] for a group that did not participate. *)
Definition m_group (t : pystr) (mo : match_obj) (n : nat) : option pystr :=
  match group_span n (m_caps mo) with
  | Some (a, b) => Some (firstn (b - a) (skipn a t))
  | None => None
  end.

(** [.]: any character but a newline. *)
Definition not_nl (a : ascii) : bool := negb (ascii_eqb a nl).

Definition ws : rx := RStar true is_space.

(** [r"^\s*(?:#|<!--)\s*FILE_PATH:\s*(.*?)\s*(?:-->)?"] *)
Definition file_path_pattern : rx :=
  RSeq RBol (RSeq ws (RSeq (RAlt (RLit (s2l "#")) (RLit (s2l "<!--")))
  (RSeq ws (RSeq (RLit (s2l "FILE_PATH:")) (RSeq ws
  (RSeq (RGroup 1 (RStar false not_nl)) (RSeq ws (ROpt (RLit (s2l "-->")))))))))).

(** ** Python values the script handles *)

(** A decoded JSON document ([response.json()]). *)
Inductive json :=
| JNull
| JBool (b : bool)
| JNum (z : Z)
| JStr (s : pystr)
| JArr (l : list json)
| JObj (l : list (pystr * json)).

(** One HTTP response: status, body text, and its JSON decoding when the
    body is valid JSON. *)
Record http_response := { status : Z; body_text : pystr; body_json : option json }.

(** What [session.post(...)] meets: a connection-level failure (refused
    connection, DNS failure, timeout), a failure of the credential refresh
    that [AuthorizedSession] runs before sending ([before_request] raising
    google.auth's [RefreshError] or [TransportError]), or a response. *)
Inductive http_outcome :=
| ConnError
| AuthError
| Resp (r : http_response).

Inductive oserr := ENOENT | ENOTDIR | EEXIST | EISDIR.

(** The exception classes the script raises or catches.  All are
    subclasses of [Exception]; [SystemExit] is modelled separately as
    [Exit] below since [except Exception] does not catch it. *)
Inductive pyexc :=
| OSError (e : oserr)
| RequestException (resp : option http_response)
| ValueError (msg : pystr)
| KeyError
| IndexError
| AttributeError
| TypeError
| GoogleAuthError.                 (* google.auth.exceptions.GoogleAuthError *)

(** The file-system tree: absolute component lists to nodes. *)
Inductive node := Dir | File (content : pystr).

(** A [pathlib.PurePosixPath]: rooted or relative, components in reverse
    order (last component first), so [parent] drops the head. *)
Record path := { p_abs : bool; p_rparts : list pystr }.

(** The lines the script prints. *)
Inductive line :=
| LStr (s : pystr)
| LWarnNoPath (prefix : pystr)
| LWrote (p : path)
| LWriteError (path_str : pystr) (e : pyexc)
| LLlmError (e : pyexc)
| LRespBody (body : pystr)
| LParseError (e : pyexc)
| LFullResponse (j : json).

(** The world the process runs in. *)
Record world := {
  w_title : option pystr;              (* os.getenv("ISSUE_TITLE") *)
  w_body : option pystr;               (* os.getenv("ISSUE_BODY") *)
  w_project : option pystr;            (* os.getenv("GCP_PROJECT_ID") *)
  w_creds : bool;                      (* google.auth.default() finds credentials *)
  w_server : nat -> http_outcome;      (* the outcome of the n-th POST *)
  w_sent : list pystr;                 (* prompts passed to session.post so far, in order *)
  w_cwd : list pystr;                  (* the working directory *)
  w_fs : gmap (list pystr) node;
  w_out : list line }.                 (* standard output, in order *)

Definition set_fs (fs : gmap (list pystr) node) (w : world) : world :=
  {| w_title := w_title w; w_body := w_body w; w_project := w_project w;
     w_creds := w_creds w; w_server := w_server w; w_sent := w_sent w;
     w_cwd := w_cwd w; w_fs := fs; w_out := w_out w |}.

Definition add_out (l : line) (w : world) : world :=
  {| w_title := w_title w; w_body := w_body w; w_project := w_project w;
     w_creds := w_creds w; w_server := w_server w; w_sent := w_sent w;
     w_cwd := w_cwd w; w_fs := w_fs w; w_out := w_out w ++ [l] |}.

Definition add_sent (p : pystr) (w : world) : world :=
  {| w_title := w_title w; w_body := w_body w; w_project := w_project w;
     w_creds := w_creds w; w_server := w_server w; w_sent := w_sent w ++ [p];
     w_cwd := w_cwd w; w_fs := w_fs w; w_out := w_out w |}.

(** ** The process monad: state over [world], with [sys.exit] and raised
    exceptions as the two ways out. *)
Inductive res (A : Type) :=
| Ret (a : A)
| Exit (code : Z)
| Raise (e : pyexc).
Arguments Ret {A} a.
Arguments Exit {A} code.
Arguments Raise {A} e.

Definition M (A : Type) : Type := world -> res A * world.

Definition ret {A} (a : A) : M A := fun w => (Ret a, w).

Definition bind {A B} (m : M A) (f : A -> M B) : M B := fun w =>
  match m w with
  | (Ret a, w') => f a w'
  | (Exit c, w') => (Exit c, w')
  | (Raise e, w') => (Raise e, w')
  end.

Global Instance M_ret : MRet M := @ret.
Global Instance M_bind : MBind M := fun A B f m => bind m f.

Definition raise {A} (e : pyexc) : M A := fun w => (Raise e, w).
Definition sys_exit {A} (code : Z) : M A := fun w => (Exit code, w).
Definition print (l : line) : M unit := fun w => (Ret tt, add_out l w).

(** [try: m except ...:]; [h e = None] lets [e] propagate. *)
Definition try_except {A} (m : M A) (h : pyexc -> option (M A)) : M A := fun w =>
  match m w with
  | (Raise e, w') => match h e with Some k => k w' | None => (Raise e, w') end
  | r => r
  end.

(** The exit status of the interpreter after running a program:
    an uncaught exception prints a traceback and exits with 1. *)
Definition exit_status {A} (r : res A) : Z :=
  match r with Ret _ => 0 | Exit c => c | Raise _ => 1 end.

(** ** [pathlib] and the POSIX calls under it *)

Definition dotdot : pystr := s2l "..".
Definition slash : pystr := s2l "/".

(** [Path(s)] (PurePosixPath._parse_args): rooted iff [s] starts with
    ["/"]; components are the pieces between slashes, with empty and ["."]
    pieces dropped. *)
Definition path_of_str (s : pystr) : path :=
  {| p_abs := py_startswith s slash;
     p_rparts := rev (filter (fun x => negb (bool_decide (x = [] \/ x = s2l ".")))
                             (py_split s slash)) |}.

(** [p.parent]: lexical; the parent of ["."] or ["/"] is itself. *)
Definition path_parent (p : path) : path :=
  {| p_abs := p_abs p; p_rparts := tail (p_rparts p) |}.

Section Os.
Variable cwd : list pystr.

Definition start_dir (p : path) : list pystr := if p_abs p then [] else cwd.

(** One step of the kernel's name lookup: [".."] goes up (the root is its
    own parent), any other name goes down. *)
Definition step_dir (cur : list pystr) (c : pystr) : list pystr :=
  if bool_decide (c = dotdot) then removelast cur else cur ++ [c].

(** Walk [comps] from [cur]; every component must name an existing
    directory ([ENOENT] when missing, [ENOTDIR] when a regular file). *)
Fixpoint lookup_dir (fs : gmap (list pystr) node) (cur : list pystr) (comps : list pystr)
  : list pystr + oserr :=
  match comps with
  | [] => inl cur
  | c :: cs =>
      let nxt := step_dir cur c in
      match fs !! nxt with
      | Some Dir => lookup_dir fs nxt cs
      | Some (File _) => inr ENOTDIR
      | None => inr ENOENT
      end
  end.

(** [os.mkdir(p)] *)
Definition os_mkdir (fs : gmap (list pystr) node) (p : path) : gmap (list pystr) node + oserr :=
  match p_rparts p with
  | [] => inr EEXIST
  | last :: init =>
      match lookup_dir fs (start_dir p) (rev init) with
      | inr e => inr e
      | inl d =>
          if bool_decide (last = dotdot) then inr EEXIST
          else match fs !! (d ++ [last]) with
               | Some _ => inr EEXIST
               | None => inl (<[d ++ [last] := Dir]> fs)
               end
      end
  end.

(** [p.is_dir()]: errors of [stat] read as [False]. *)
Definition path_is_dir (fs : gmap (list pystr) node) (p : path) : bool :=
  match lookup_dir fs (start_dir p) (rev (p_rparts p)) with
  | inl _ => true
  | inr _ => false
  end.

(** [p.mkdir(parents=False, exist_ok=exist_ok)] *)
Definition pl_mkdir_single (fs : gmap (list pystr) node) (p : path) (exist_ok : bool)
  : gmap (list pystr) node + oserr :=
  match os_mkdir fs p with
  | inl fs' => inl fs'
  | inr ENOENT => inr ENOENT
  | inr e => if exist_ok && path_is_dir fs p then inl fs else inr e
  end.

(** [p.mkdir(parents=True, exist_ok=exist_ok)] (pathlib, Python 3.10):
<<
    try: os.mkdir(self)
    except FileNotFoundError:
        if not parents or self.parent == self: raise
        self.parent.mkdir(parents=True, exist_ok=True)
        self.mkdir(parents=False, exist_ok=exist_ok)
    except OSError:
        if not exist_ok or not self.is_dir(): raise
>>
    An error comes with the file system as it then is: the ancestors
    created before it stay in place. *)
Fixpoint pl_mkdir_parents (fs : gmap (list pystr) node) (ab : bool) (rparts : list pystr)
    (exist_ok : bool) : gmap (list pystr) node + (oserr * gmap (list pystr) node) :=
  let p := {| p_abs := ab; p_rparts := rparts |} in
  match os_mkdir fs p with
  | inl fs' => inl fs'
  | inr ENOENT =>
      match rparts with
      | [] => inr (ENOENT, fs)
      | _ :: par =>
          match pl_mkdir_parents fs ab par true with
          | inl fs1 =>
              match pl_mkdir_single fs1 p exist_ok with
              | inl fs2 => inl fs2
              | inr e => inr (e, fs1)
              end
          | inr efs => inr efs
          end
      end
  | inr e => if exist_ok && path_is_dir fs p then inl fs else inr (e, fs)
  end.

(** [p.write_text(content)]: [open(p, 'w')] truncates or creates. *)
Definition os_write_text (fs : gmap (list pystr) node) (p : path) (content : pystr)
  : gmap (list pystr) node + oserr :=
  match p_rparts p with
  | [] => inr EISDIR
  | last :: init =>
      match lookup_dir fs (start_dir p) (rev init) with
      | inr e => inr e
      | inl d =>
          if bool_decide (last = dotdot) then inr EISDIR
          else match fs !! (d ++ [last]) with
               | Some Dir => inr EISDIR
               | _ => inl (<[d ++ [last] := File content]> fs)
               end
      end
  end.

End Os.

(** Lift a file-system call into the process monad. *)
Definition fs_call (f : list pystr -> gmap (list pystr) node -> gmap (list pystr) node + oserr)
  : M unit := fun w =>
  match f (w_cwd w) (w_fs w) with
  | inl fs' => (Ret tt, set_fs fs' w)
  | inr e => (Raise (OSError e), w)
  end.

(** The same for a call that can fail after changing the file system:
    the error comes with the file system as the call leaves it. *)
Definition fs_call_partial
    (f : list pystr -> gmap (list pystr) node ->
         gmap (list pystr) node + (oserr * gmap (list pystr) node)) : M unit := fun w =>
  match f (w_cwd w) (w_fs w) with
  | inl fs' => (Ret tt, set_fs fs' w)
  | inr (e, fs') => (Raise (OSError e), set_fs fs' w)
  end.

(** ** [parse_and_write_files] *)

Definition FILE_SEPARATOR : pystr := s2l "---FILE_SEPARATOR---".
Definition fence : pystr := s2l "```".

(** Lines 98-106: the content after the match, trimmed and unfenced. *)
Definition clean_content (block : pystr) (content_start_index : nat) : pystr :=
  let clean_block := py_strip (skipn content_start_index block) in
  let clean_block :=
    if py_startswith clean_block fence
    then let first_line_end := (py_find_char clean_block nl + 1)%Z in
         py_slice_from clean_block first_line_end
    else clean_block in
  let clean_block :=
    if py_endswith clean_block fence then py_slice_to clean_block (-3) else clean_block in
  py_strip clean_block.

(** Lines 109-112: the body of the [try]. *)
Definition write_generated_file (file_path_str content : pystr) : M unit :=
  let file_path := path_of_str file_path_str in
  fs_call_partial (fun cwd fs =>
    pl_mkdir_parents cwd fs (p_abs (path_parent file_path)) (p_rparts (path_parent file_path)) true) ;;
  fs_call (fun cwd fs => os_write_text cwd fs file_path content) ;;
  print (LWrote file_path).

(** One iteration of the [for block in file_blocks] loop. *)
Definition process_block (block : pystr) : M unit :=
  if bool_decide (py_strip block = []) then mret tt else
  match re_search file_path_pattern block with
  | None => print (LWarnNoPath (firstn 200 block))
  | Some mo =>
      match m_group block mo 1 with
      | None => raise AttributeError
      | Some g =>
          let file_path_str := py_strip g in
          let content := clean_content block (m_end mo) in
          try_except (write_generated_file file_path_str content)
            (fun e => Some (print (LWriteError file_path_str e) ;; sys_exit 1))
      end
  end.

Fixpoint for_blocks (bs : list pystr) : M unit :=
  match bs with
  | [] => mret tt
  | b :: bs' => process_block b ;; for_blocks bs'
  end.

Definition parse_and_write_files (response_text : pystr) : M unit :=
  print (LStr (s2l "Parsing response and writing files...")) ;;
  for_blocks (py_split response_text FILE_SEPARATOR).

(** ** [call_llm] *)

Fixpoint assoc_last (l : list (pystr * json)) (k : pystr) : option json :=
  match l with
  | [] => None
  | (k', v) :: l' =>
      match assoc_last l' k with
      | Some v' => Some v'
      | None => if bool_decide (k' = k) then Some v else None
      end
  end.

(** [d.get(k, default)]: decoded JSON objects are dicts (a repeated key
    keeps its last value); any other value has no [get]. *)
Definition py_get (d : json) (k : pystr) (default : json) : M json :=
  match d with
  | JObj l => match assoc_last l k with Some v => mret v | None => mret default end
  | _ => raise AttributeError
  end.

(** Python truthiness of a decoded JSON value. *)
Definition truthy (v : json) : bool :=
  match v with
  | JNull => false
  | JBool b => b
  | JNum z => negb (Z.eqb z 0)
  | JStr s => negb (bool_decide (s = []))
  | JArr l => negb (bool_decide (l = []))
  | JObj l => negb (bool_decide (l = []))
  end.

(** [v[0]] *)
Definition py_getitem0 (v : json) : M json :=
  match v with
  | JArr (x :: _) => mret x
  | JArr [] => raise IndexError
  | JStr (a :: _) => mret (JStr [a])
  | JStr [] => raise IndexError
  | JObj _ => raise KeyError
  | _ => raise TypeError
  end.

(** [session.post(LLM_API_URL, json=payload, timeout=300)]: the n-th
    call meets [w_server w n]; [w_sent] records the calls. *)
Definition session_post (prompt : pystr) : M http_outcome := fun w =>
  (Ret (w_server w (length (w_sent w))), add_sent prompt w).

(** [response.raise_for_status()] raises [HTTPError] for 4xx and 5xx. *)
Definition raise_for_status (r : http_response) : M unit :=
  if ((400 <=? status r) && (status r <? 600))%Z
  then raise (RequestException (Some r)) else mret tt.

(** [response.json()]: an undecodable body raises
    [requests.exceptions.JSONDecodeError], a [RequestException]. *)
Definition response_json (r : http_response) : M json :=
  match body_json r with
  | Some j => mret j
  | None => raise (RequestException None)
  end.

(** Lines 48-51: the request, up to the decoded response. *)
Definition call_llm_request (prompt : pystr) : M json :=
  o ← session_post prompt;
  match o with
  | ConnError => raise (RequestException None)
  | AuthError => raise GoogleAuthError
  | Resp r => raise_for_status r ;; response_json r
  end.

(** Lines 53-63: reading the completion out of [response_data]. *)
Definition call_llm_extract (response_data : json) : M json :=
  candidates ← py_get response_data (s2l "candidates") (JArr []);
  if negb (truthy candidates)
  then raise (ValueError (s2l "No candidates found in LLM response."))
  else
  c0 ← py_getitem0 candidates;
  content ← py_get c0 (s2l "content") (JObj []);
  parts ← py_get content (s2l "parts") (JArr []);
  if negb (truthy parts)
  then raise (ValueError (s2l "No parts found in LLM response content."))
  else
  print (LStr (s2l "LLM response received successfully.")) ;;
  p0 ← py_getitem0 parts;
  py_get p0 (s2l "text") (JStr []).

(** [except requests.exceptions.RequestException as e:] *)
Definition request_handler {A} (e : pyexc) : option (M A) :=
  match e with
  | RequestException resp =>
      Some (print (LLlmError e) ;;
            match resp with Some r => print (LRespBody (body_text r)) | None => mret tt end ;;
            sys_exit 1)
  | _ => None
  end.

(** [except (KeyError, IndexError, ValueError) as e:] *)
Definition parse_handler {A} (response_data : json) (e : pyexc) : option (M A) :=
  match e with
  | KeyError | IndexError | ValueError _ =>
      Some (print (LParseError e) ;; print (LFullResponse response_data) ;; sys_exit 1)
  | _ => None
  end.

(** [call_llm].  The one [try] of the source is split at the point where
    [response_data] is bound: lines 48-51 raise only [RequestException]s,
    lines 53-63 only [KeyError], [IndexError], [ValueError] (handled by
    the second clause) and [AttributeError]/[TypeError] (handled by
    neither), so each part meets exactly the clauses that can fire. *)
Definition call_llm (prompt : pystr) : M json :=
  print (LStr (s2l "Sending prompt to LLM...")) ;;
  response_data ← try_except (call_llm_request prompt) request_handler;
  try_except (call_llm_extract response_data) (parse_handler response_data).

(** ** [main] *)

(** [parse_and_write_files] receives whatever [call_llm] returned;
    [response_text.split] exists only on a [str]. *)
Definition parse_and_write_value (response_text : json) : M unit :=
  match response_text with
  | JStr s => parse_and_write_files s
  | _ => print (LStr (s2l "Parsing response and writing files...")) ;; raise AttributeError
  end.

(** [get_gcp_auth_session] *)
Definition get_gcp_auth_session : M unit := fun w =>
  if w_creds w then (Ret tt, w)
  else (print (LStr (s2l "Error: Could not find Google Cloud credentials.")) ;;
        print (LStr (s2l "Please ensure you are running in a configured GCP environment or have set up Application Default Credentials.")) ;;
        sys_exit 1) w.

(** [not x] for an environment variable. *)
Definition env_missing (v : option pystr) : bool :=
  match v with None => true | Some s => bool_decide (s = []) end.

Definition code_gen_prompt (title body : pystr) : pystr :=
  s2l "
    You are an expert Android developer specializing in Kotlin and modern Android practices.
    Your task is to generate all necessary files for a new feature based on a GitHub issue.

    GitHub Issue Title: '" ++ title ++ s2l "'
    GitHub Issue Body:
    ---
    " ++ body ++ s2l "
    ---

    Instructions:
    1.  Generate complete, production-ready Kotlin and XML layout files.
    2.  Ensure the code is clean, well-commented, and follows standard Android architecture patterns (e.g., MVVM if applicable).
    3.  IMPORTANT: Your response MUST be a single block of text. Separate each file's content with the exact delimiter: '" ++ FILE_SEPARATOR ++ s2l "'.
    4.  At the beginning of each file's content, you MUST include a comment indicating its full, relative path from the project root. The format is critical. Example:
        # FILE_PATH: app/src/main/java/com/example/myapp/MyNewActivity.kt
    5.  For XML files, use a comment like this:
        <!-- FILE_PATH: app/src/main/res/layout/activity_my_new.xml -->
    ".

Definition test_gen_prompt (generated_code_response : pystr) : pystr :=
  s2l "
    You are an expert Android test engineer. Your task is to write comprehensive unit tests for the provided application code.

    Application Code to Test:
    ---
    " ++ generated_code_response ++ s2l "
    ---

    Instructions:
    1.  Use JUnit 5 and Mockito for testing.
    2.  Generate a complete test file that covers the logic in the provided code. Include tests for happy paths and edge cases.
    3.  As before, your response must be a single block of text, and you MUST start the file content with a file path comment. Example:
        # FILE_PATH: app/src/test/java/com/example/myapp/MyNewActivityTest.kt
    ".

(** [str(v)] of the first completion; [main] reaches its use only when
    [v] is a [str], since [parse_and_write_files] raised otherwise. *)
Definition py_str_of (v : json) : pystr :=
  match v with JStr s => s | _ => [] end.

Definition main : M unit := fun w =>
  if env_missing (w_title w) || env_missing (w_body w) || env_missing (w_project w)
  then (print (LStr (s2l "Error: ISSUE_TITLE, ISSUE_BODY, or GCP_PROJECT_ID environment variables not set.")) ;;
        sys_exit 1) w
  else
  let title := default [] (w_title w) in
  let body := default [] (w_body w) in
  (get_gcp_auth_session ;;
   print (LStr (nl :: s2l "--- Step 1: Generating Application Code ---")) ;;
   generated_code_response ← call_llm (code_gen_prompt title body);
   parse_and_write_value generated_code_response ;;
   print (LStr (s2l "Application code generation complete.")) ;;
   print (LStr (nl :: s2l "--- Step 2: Generating Unit Tests ---")) ;;
   generated_test_response ← call_llm (test_gen_prompt (py_str_of generated_code_response));
   parse_and_write_value generated_test_response ;;
   print (LStr (s2l "Unit test generation complete.")) ;;
   print (LStr (nl :: s2l "AI Agent finished successfully."))) w.

(** Running the script: the final world and the interpreter's exit status. *)
Definition run_script (w : world) : Z * world :=
  let rw := main w in (exit_status (fst rw), snd rw).

(** ** Concrete inputs *)

(** The response text of the spec's end-to-end example. *)
Definition example_response : pystr :=
  s2l "# FILE_PATH: a/b.txt" ++ [nl] ++ s2l "hello" ++ [nl] ++ FILE_SEPARATOR ++
  s2l "# FILE_PATH: c.txt" ++ [nl] ++ fence ++ s2l "text" ++ [nl] ++ s2l "world" ++ [nl] ++
  fence ++ [nl].

(** The same one-line file declared in the two comment styles. *)
Definition hash_block : pystr := s2l "# FILE_PATH: f.txt" ++ [nl] ++ s2l "hi".
Definition html_block : pystr := s2l "<!-- FILE_PATH: f.txt -->" ++ [nl] ++ s2l "hi".

(** A declaration followed by fenced content. *)
Definition fenced_block : pystr :=
  s2l "# FILE_PATH: f.txt" ++ [nl] ++ fence ++ s2l "text" ++ [nl] ++ s2l "ABC" ++ [nl] ++ fence.

(** A process environment: all inputs set, credentials found, a
    working directory [/repo], every request failing to connect. *)
Definition example_world : world :=
  {| w_title := Some (s2l "Add login screen"); w_body := Some (s2l "A login form.");
     w_project := Some (s2l "proj"); w_creds := true; w_server := fun _ => ConnError;
     w_sent := []; w_cwd := [s2l "repo"];
     w_fs := <[[s2l "repo"] := Dir]> (<[[] := Dir]> ∅); w_out := [] |}.

Definition example_path : pystr := s2l "a/b.txt".

(** [example_world] where refreshing the credentials fails. *)
Definition auth_failure_world : world :=
  {| w_title := w_title example_world; w_body := w_body example_world;
     w_project := w_project example_world; w_creds := true;
     w_server := fun _ => AuthError; w_sent := []; w_cwd := w_cwd example_world;
     w_fs := w_fs example_world; w_out := [] |}.

(** [example_world] with a file [f] in the working directory. *)
Definition file_f_world : world :=
  {| w_title := w_title example_world; w_body := w_body example_world;
     w_project := w_project example_world; w_creds := true;
     w_server := w_server example_world; w_sent := []; w_cwd := w_cwd example_world;
     w_fs := <[[s2l "repo"; s2l "f"] := File []]> (w_fs example_world); w_out := [] |}.

(** [example_world] after writing [hello] to [a/b.txt]. *)
Definition example_written : world :=
  snd (write_generated_file example_path (s2l "hello") example_world).

(** [example_world] with [ISSUE_TITLE] unset. *)
Definition no_title_world : world :=
  {| w_title := None; w_body := w_body example_world; w_project := w_project example_world;
     w_creds := true; w_server := w_server example_world; w_sent := [];
     w_cwd := w_cwd example_world; w_fs := w_fs example_world; w_out := [] |}.

(** A failure of the request at the transport level, as the spec words
    it: a connection error, an error status, or an undecodable body. *)
Definition transport_failure (o : http_outcome) : Prop :=
  match o with
  | ConnError => True
  | AuthError => False
  | Resp r => (400 <= status r < 600)%Z \/ body_json r = None
  end.

Definition step1_line : line := LStr (nl :: s2l "--- Step 1: Generating Application Code ---").
Definition sending_line : line := LStr (s2l "Sending prompt to LLM...").

(** [{"candidates": [{"content": {"parts": [{"text": t}]}}]}] *)
Definition completion_json (t : pystr) : json :=
  JObj [(s2l "candidates",
         JArr [JObj [(s2l "content", JObj [(s2l "parts", JArr [JObj [(s2l "text", JStr t)]])])]])].

Definition completion_response (st : Z) (t : pystr) : http_response :=
  {| status := st; body_text := s2l "{...}"; body_json := Some (completion_json t) |}.

(** [example_world] with a server answering [300 Multiple Choices] to the
    first request and [200 OK] afterwards, with completions that declare
    no file. *)
Definition status300_world : world :=
  {| w_title := w_title example_world; w_body := w_body example_world;
     w_project := w_project example_world; w_creds := true;
     w_server := fun n => match n with
                          | O => Resp (completion_response 300 (s2l "no files"))
                          | S _ => Resp (completion_response 200 (s2l "no tests"))
                          end;
     w_sent := []; w_cwd := w_cwd example_world; w_fs := w_fs example_world; w_out := [] |}.

(** [example_world] with a server answering [200 OK] with [j]. *)
Definition answering_world (j : json) : world :=
  {| w_title := w_title example_world; w_body := w_body example_world;
     w_project := w_project example_world; w_creds := true;
     w_server := fun _ => Resp {| status := 200; body_text := s2l "{...}"; body_json := Some j |};
     w_sent := []; w_cwd := w_cwd example_world; w_fs := w_fs example_world; w_out := [] |}.

(** A completion whose first part is a string, not an object. *)
Definition string_part_json : json :=
  JObj [(s2l "candidates",
         JArr [JObj [(s2l "content", JObj [(s2l "parts", JArr [JStr (s2l "x")])])]])].

Definition received_line : line := LStr (s2l "LLM response received successfully.").

(** [example_world] without Application Default Credentials. *)
Definition no_creds_world : world :=
  {| w_title := w_title example_world; w_body := w_body example_world;
     w_project := w_project example_world; w_creds := false;
     w_server := w_server example_world; w_sent := [];
     w_cwd := w_cwd example_world; w_fs := w_fs example_world; w_out := [] |}.

Definition creds_error_lines : list line :=
  [LStr (s2l "Error: Could not find Google Cloud credentials.");
   LStr (s2l "Please ensure you are running in a configured GCP environment or have set up Application Default Credentials.")].

Definition parsing_line : line := LStr (s2l "Parsing response and writing files...").
Definition finished_line : line := LStr (nl :: s2l "AI Agent finished successfully.").

(** [example_world] with a server answering [500] to every request. *)
Definition error500_world : world :=
  {| w_title := w_title example_world; w_body := w_body example_world;
     w_project := w_project example_world; w_creds := true;
     w_server := fun _ => Resp {| status := 500; body_text := s2l "overloaded"; body_json := None |};
     w_sent := []; w_cwd := w_cwd example_world; w_fs := w_fs example_world; w_out := [] |}.

(** A response text with a prose block and a whitespace-only block. *)
Definition undeclared_text : pystr :=
  s2l "Here is the code." ++ [nl] ++ FILE_SEPARATOR ++ s2l "  " ++ [nl].

(** A response text with a declared block between two undeclared ones. *)
Definition declared_text : pystr :=
  s2l "Intro" ++ [nl] ++ FILE_SEPARATOR ++ hash_block ++ FILE_SEPARATOR ++ s2l "tail".

(** [example_world] with [ISSUE_TITLE] set to the empty string. *)
Definition empty_title_world : world :=
  {| w_title := Some []; w_body := w_body example_world; w_project := w_project example_world;
     w_creds := true; w_server := w_server example_world; w_sent := [];
     w_cwd := w_cwd example_world; w_fs := w_fs example_world; w_out := [] |}.

Definition missing_env_message : pystr :=
  s2l "Error: ISSUE_TITLE, ISSUE_BODY, or GCP_PROJECT_ID environment variables not set.".

(** ** Vocabulary for properties of whole runs *)

(** [sep.join(parts)] *)
Fixpoint py_join (sep : pystr) (parts : list pystr) : pystr :=
  match parts with
  | [] => []
  | [x] => x
  | x :: parts' => x ++ sep ++ py_join sep parts'
  end.

(** A computation whose every [sys.exit] is [sys.exit(1)]. *)
Definition exits_only_1 {A} (m : M A) : Prop :=
  forall w c, fst (m w) = Exit c -> c = 1%Z.

(** A computation that sends no request. *)
Definition keeps_sent {A} (m : M A) : Prop :=
  forall w, w_sent (snd (m w)) = w_sent w.

(** A computation that leaves the file system as it is. *)
Definition keeps_fs {A} (m : M A) : Prop :=
  forall w, w_fs (snd (m w)) = w_fs w.

(** Several lines printed in order. *)
Definition add_outs (ls : list line) (w : world) : world :=
  {| w_title := w_title w; w_body := w_body w; w_project := w_project w;
     w_creds := w_creds w; w_server := w_server w; w_sent := w_sent w;
     w_cwd := w_cwd w; w_fs := w_fs w; w_out := w_out w ++ ls |}.

(** [fs'] is [fs] with directories added at names that were free. *)
Definition only_new_dirs (fs fs' : gmap (list pystr) node) : Prop :=
  forall k, fs' !! k = fs !! k \/ (fs !! k = None /\ fs' !! k = Some Dir).

(** A computation whose uncaught exceptions all satisfy [P]. *)
Definition raises_within (P : pyexc -> Prop) {A} (m : M A) : Prop :=
  forall w e, fst (m w) = Raise e -> P e.

(** The exceptions [call_llm_extract] can raise. *)
Definition extract_exc (e : pyexc) : Prop :=
  e = AttributeError \/ e = TypeError \/ e = KeyError \/ e = IndexError \/
  exists msg, e = ValueError msg.

(** The warnings [parse_and_write_files] prints when no block declares a path. *)
Definition no_path_warnings (blocks : list pystr) : list line :=
  map (fun b => LWarnNoPath (firstn 200 b))
      (List.filter (fun b => negb (bool_decide (py_strip b = []))) blocks).

(** * Properties *)

(** Unfold the process monad to its state-passing form. *)
Ltac unfold_M :=
  unfold mbind, M_bind, mret, M_ret, bind, ret, fs_call, fs_call_partial, print, raise, sys_exit, try_except in *.

(** ** The matcher *)

Lemma try_down_cont {R} (k : nat -> caps -> option R) i c m x :
  try_down k i c m = Some x -> exists j, k j c = Some x.
Proof.
  induction m as [|m IH]; simpl; destruct (k (i + _) c) eqn:E; intros H;
    try (inversion H; subst; eauto; fail); eauto; discriminate.
Qed.

Lemma try_up_cont {R} (k : nat -> caps -> option R) j c m x :
  try_up k j c m = Some x -> exists j', k j' c = Some x.
Proof.
  revert j. induction m as [|m IH]; intros j; simpl; destruct (k j c) eqn:E; intros H;
    try (inversion H; subst; eauto; fail); eauto; discriminate.
Qed.

(** Every success of the matcher is a success of its continuation. *)
Lemma mt_cont {R} (r : rx) t i c (k : nat -> caps -> option R) x :
  mt r t i c k = Some x -> exists j c', k j c' = Some x.
Proof.
  revert i c k. induction r as [p|s|r1 IH1 r2 IH2|r1 IH1 r2 IH2|[] p|r1 IH1|n r1 IH1|];
    intros i c k H; simpl in H.
  - destruct (nth_error t i) as [a|]; [destruct (p a)|]; eauto; discriminate.
  - destruct (prefixb s _); eauto; discriminate.
  - destruct (IH1 _ _ _ H) as (j & c' & Hj). eauto.
  - destruct (mt r1 t i c k) eqn:E.
    + inversion H; subst. eauto.
    + eauto.
  - apply try_down_cont in H as [j Hj]. eauto.
  - apply try_up_cont in H as [j Hj]. eauto.
  - destruct (mt r1 t i c k) eqn:E.
    + inversion H; subst. eauto.
    + eauto.
  - destruct (IH1 _ _ _ H) as (j & c' & Hj). eauto.
  - destruct i as [|i']; [eauto|].
    destruct (bool_decide _); eauto; discriminate.
Qed.

Lemma search_go_some r t i m mo :
  search_go r t i m = Some mo ->
  exists s, mt r t s [] (fun j c => Some {| m_start := s; m_end := j; m_caps := c |}) = Some mo.
Proof.
  revert i. induction m as [|m IH]; intros i; simpl;
    destruct (mt r t i [] _) eqn:E; intros H; try (inversion H; subst; eauto; fail); eauto.
Qed.

Lemma run_len_skipn p (l : pystr) : run_len p (skipn (run_len p l) l) = 0.
Proof. induction l as [|a l IH]; simpl; [done|]. destruct (p a) eqn:E; simpl; [done|]. by rewrite E. Qed.

Lemma skipn_add {A} n m (l : list A) : skipn (n + m) l = skipn m (skipn n l).
Proof. revert l. induction n as [|n IH]; intros [|a l]; simpl; auto. by destruct m. Qed.

Lemma mt_seq {R} r1 r2 t i c (k : nat -> caps -> option R) :
  mt (RSeq r1 r2) t i c k = mt r1 t i c (fun j c' => mt r2 t j c' k).
Proof. reflexivity. Qed.

Lemma mt_ws {R} t i c (k : nat -> caps -> option R) :
  mt ws t i c k = try_down k i c (run_len is_space (skipn i t)).
Proof. reflexivity. Qed.

(** The pattern on a block whose declaration follows a first line. *)
Example search_ex1 :
  option_map (fun mo => (m_start mo, m_end mo, group_span 1 (m_caps mo)))
    (re_search file_path_pattern (s2l "x
  # FILE_PATH: a/b.txt
hi")) = Some (2, 17, Some (17, 17)).
Proof. vm_compute. reflexivity. Qed.

(** The part of the pattern after ["FILE_PATH:"] never fails, and its
    lazy group stops where the whitespace run stops: it captures nothing. *)
Lemma pattern_tail_eval t s i c n :
  run_len is_space (skipn i t) = n ->
  mt (RSeq ws (RSeq (RGroup 1 (RStar false not_nl)) (RSeq ws (ROpt (RLit (s2l "-->"))))))
     t i c (fun e c' => Some {| m_start := s; m_end := e; m_caps := c' |})
  = Some {| m_start := s;
            m_end := if prefixb (s2l "-->") (skipn (i + n) t) then i + n + 3 else i + n;
            m_caps := (1, (i + n, i + n)) :: c |}.
Proof.
  intros En.
  assert (Hz : run_len is_space (skipn (i + n) t) = 0)
    by (rewrite skipn_add, <- En; apply run_len_skipn).
  assert (HK : mt (RSeq (RGroup 1 (RStar false not_nl)) (RSeq ws (ROpt (RLit (s2l "-->")))))
                  t (i + n) c (fun e c' => Some {| m_start := s; m_end := e; m_caps := c' |})
               = Some {| m_start := s;
                         m_end := if prefixb (s2l "-->") (skipn (i + n) t) then i + n + 3 else i + n;
                         m_caps := (1, (i + n, i + n)) :: c |}).
  { rewrite mt_seq. cbn [mt].
    destruct (run_len not_nl (skipn (i + n) t)); cbn [try_up]; rewrite mt_ws, Hz;
      cbn [try_down]; rewrite Nat.add_0_r; cbn [mt]; destruct (prefixb _ _); reflexivity. }
  rewrite mt_seq, mt_ws, En. destruct n; cbn [try_down]; rewrite HK; reflexivity.
Qed.

(** Whatever the block, a match of the path pattern captures the empty
    string in group 1, right after the whitespace that follows
    ["FILE_PATH:"]; the match ends there or three characters later, after
    a ["-->"]. *)
Lemma file_path_match_shape (block : pystr) mo :
  re_search file_path_pattern block = Some mo ->
  exists g, group_span 1 (m_caps mo) = Some (g, g) /\
            (m_end mo = g \/ (m_end mo = g + 3 /\ prefixb (s2l "-->") (skipn g block) = true)).
Proof.
  unfold re_search. intros H. apply search_go_some in H as [s H].
  unfold file_path_pattern in H.
  do 5 (rewrite mt_seq in H; apply mt_cont in H as (? & ? & H); cbv beta in H).
  rewrite (pattern_tail_eval _ _ _ _ _ eq_refl) in H.
  match type of H with
  | context [prefixb ?a ?b] => destruct (prefixb a b) eqn:E
  end; injection H as <-; eexists; (split; [reflexivity|]); cbn [m_end].
  - right. split; [lia|exact E].
  - left. reflexivity.
Qed.

Lemma file_path_group_empty (block : pystr) mo :
  re_search file_path_pattern block = Some mo -> m_group block mo 1 = Some [].
Proof.
  intros H. apply file_path_match_shape in H as (g & Hg & _).
  unfold m_group. rewrite Hg. by rewrite Nat.sub_diag.
Qed.

Lemma path_of_empty : path_of_str [] = {| p_abs := false; p_rparts := [] |}.
Proof. reflexivity. Qed.

Lemma set_fs_same w : set_fs (w_fs w) w = w.
Proof. by destruct w. Qed.

(** With the empty path, [Path("")] is ["."]: its parent exists, and
    opening ["."] for writing fails with [IsADirectoryError]. *)
Lemma write_generated_file_empty content w :
  write_generated_file [] content w = (Raise (OSError EISDIR), w).
Proof.
  unfold write_generated_file. rewrite path_of_empty.
  cbn -[path_is_dir]. unfold path_is_dir. unfold_M. cbn. by rewrite set_fs_same.
Qed.

(** Every non-blank block in which the path pattern matches ends the
    process with status 1, with the file system untouched. *)
Lemma process_block_matched (block : pystr) mo w :
  py_strip block <> [] ->
  re_search file_path_pattern block = Some mo ->
  process_block block w = (Exit 1, add_out (LWriteError [] (OSError EISDIR)) w).
Proof.
  intros Hne Hm. unfold process_block.
  rewrite bool_decide_eq_false_2 by exact Hne.
  rewrite Hm, (file_path_group_empty _ _ Hm).
  unfold try_except. change (py_strip []) with (@nil ascii).
  rewrite write_generated_file_empty. reflexivity.
Qed.

(** ** Claims on [parse_and_write_files] *)

(** C1: on the spec's end-to-end example response
    ["# FILE_PATH: a/b.txt\nhello\n---FILE_SEPARATOR---# FILE_PATH: c.txt\n```text\nworld\n```\n"]
    no file is written: the path captured for the first block is empty,
    [Path("")] is the working directory itself, opening it for writing
    raises [IsADirectoryError], and the handler exits with status 1.  The
    spec expects [a/b.txt] with [hello] and [c.txt] with [world]. *)
Theorem example_response_writes_nothing (w : world) :
  parse_and_write_files example_response w =
  (Exit 1, add_out (LWriteError [] (OSError EISDIR))
             (add_out (LStr (s2l "Parsing response and writing files...")) w)).
Proof. destruct w. vm_compute. reflexivity. Qed.

(** C2: the ["#"] and ["<!--"] declaration forms of the path [f.txt] do
    not yield the path [f.txt]: both capture the empty string, the path
    stays at the start of the content (followed by ["-->"] in the HTML
    form, so the two forms leave different contents), and both blocks end
    the process with status 1. *)
Theorem declaration_forms_capture_empty :
  (exists mo, re_search file_path_pattern hash_block = Some mo /\
     m_group hash_block mo 1 = Some [] /\
     clean_content hash_block (m_end mo) = s2l "f.txt" ++ [nl] ++ s2l "hi") /\
  (exists mo, re_search file_path_pattern html_block = Some mo /\
     m_group html_block mo 1 = Some [] /\
     clean_content html_block (m_end mo) = s2l "f.txt -->" ++ [nl] ++ s2l "hi") /\
  (forall w,
     process_block hash_block w = (Exit 1, add_out (LWriteError [] (OSError EISDIR)) w) /\
     process_block html_block w = (Exit 1, add_out (LWriteError [] (OSError EISDIR)) w)).
Proof.
  split; [|split].
  - exists {| m_start := 0; m_end := 13; m_caps := [(1, (13, 13))] |}.
    split; [|split]; vm_compute; reflexivity.
  - exists {| m_start := 0; m_end := 16; m_caps := [(1, (16, 16))] |}.
    split; [|split]; vm_compute; reflexivity.
  - intros w. split.
    + apply (process_block_matched _ {| m_start := 0; m_end := 13; m_caps := [(1, (13, 13))] |});
        [vm_compute; discriminate | vm_compute; reflexivity].
    + apply (process_block_matched _ {| m_start := 0; m_end := 16; m_caps := [(1, (16, 16))] |});
        [vm_compute; discriminate | vm_compute; reflexivity].
Qed.

(** C3: whenever the path pattern matches a block, group 1 is empty (so
    [file_path_str] is [""]) and sits right after the whitespace following
    ["FILE_PATH:"]; the match ends there, or after a ["-->"] found there,
    so the declared path stays in [block[match.end():]]. *)
Theorem path_capture_always_empty (block : pystr) mo :
  re_search file_path_pattern block = Some mo ->
  exists g, group_span 1 (m_caps mo) = Some (g, g) /\
    m_group block mo 1 = Some [] /\
    py_strip (default [] (m_group block mo 1)) = [] /\
    (m_end mo = g \/ (m_end mo = g + 3 /\ prefixb (s2l "-->") (skipn g block) = true)).
Proof.
  intros H. pose proof (file_path_group_empty _ _ H) as Hg1.
  apply file_path_match_shape in H as (g & Hg & Hend).
  exists g. rewrite Hg1. auto.
Qed.

Lemma path_capture_always_empty_witness :
  re_search file_path_pattern hash_block =
    Some {| m_start := 0; m_end := 13; m_caps := [(1, (13, 13))] |} /\
  exists g, group_span 1 [(1, (13, 13))] = Some (g, g) /\
    m_group hash_block {| m_start := 0; m_end := 13; m_caps := [(1, (13, 13))] |} 1 = Some [] /\
    py_strip (default [] (m_group hash_block
                {| m_start := 0; m_end := 13; m_caps := [(1, (13, 13))] |} 1)) = [] /\
    (13 = g \/ (13 = g + 3 /\ prefixb (s2l "-->") (skipn g hash_block) = true)).
Proof.
  split; [vm_compute; reflexivity|].
  apply (path_capture_always_empty hash_block
           {| m_start := 0; m_end := 13; m_caps := [(1, (13, 13))] |}).
  vm_compute. reflexivity.
Defined.

(** C4: a declaration followed by a fenced block does not materialize
    its content: the content computed keeps the path and the opening fence
    (["f.txt\n```text\nABC"]), and no file is written, the process exits
    with status 1. *)
Theorem fenced_block_not_materialized :
  (exists mo, re_search file_path_pattern fenced_block = Some mo /\
     clean_content fenced_block (m_end mo) =
       s2l "f.txt" ++ [nl] ++ fence ++ s2l "text" ++ [nl] ++ s2l "ABC") /\
  (forall w, process_block fenced_block w =
             (Exit 1, add_out (LWriteError [] (OSError EISDIR)) w)).
Proof.
  split.
  - exists {| m_start := 0; m_end := 13; m_caps := [(1, (13, 13))] |}.
    split; vm_compute; reflexivity.
  - intros w.
    apply (process_block_matched _ {| m_start := 0; m_end := 13; m_caps := [(1, (13, 13))] |});
      [vm_compute; discriminate | vm_compute; reflexivity].
Qed.

(** C5: a non-blank block in which the path pattern does not match
    writes nothing: the loop prints the warning with [block[:200]] and
    goes on with the next block, the file system unchanged. *)
Theorem unmatched_block_skipped (block : pystr) (rest : list pystr) (w : world) :
  py_strip block <> [] ->
  re_search file_path_pattern block = None ->
  for_blocks (block :: rest) w = for_blocks rest (add_out (LWarnNoPath (firstn 200 block)) w) /\
  w_fs (add_out (LWarnNoPath (firstn 200 block)) w) = w_fs w.
Proof.
  intros Hne Hm. split; [|reflexivity].
  cbn [for_blocks]. unfold process_block.
  rewrite bool_decide_eq_false_2 by exact Hne. rewrite Hm.
  unfold_M. reflexivity.
Qed.

Lemma unmatched_block_skipped_witness :
  for_blocks [s2l "no declaration here"; hash_block] example_world =
    for_blocks [hash_block]
      (add_out (LWarnNoPath (firstn 200 (s2l "no declaration here"))) example_world) /\
  w_fs (add_out (LWarnNoPath (firstn 200 (s2l "no declaration here"))) example_world) =
    w_fs example_world.
Proof.
  apply unmatched_block_skipped; vm_compute; [discriminate | reflexivity].
Defined.

Lemma py_find_char_absent (s : pystr) c : ~ In c s -> py_find_char s c = (-1)%Z.
Proof.
  induction s as [|a s IH]; intros Hn; simpl; [done|].
  unfold ascii_eqb. destruct (ascii_dec a c) as [->|Hne]; [exfalso; apply Hn; now left|].
  rewrite IH by (intros Hi; apply Hn; now right). reflexivity.
Qed.

(** C10: when the trimmed content starts with a fence but holds no
    newline, [find('\n') + 1] is [0] and the opening-fence step keeps it
    whole; only the trailing-fence step may drop three characters. *)
Theorem fence_without_newline (block : pystr) (k : nat) :
  py_startswith (py_strip (skipn k block)) fence = true ->
  ~ In nl (py_strip (skipn k block)) ->
  clean_content block k =
    py_strip (if py_endswith (py_strip (skipn k block)) fence
              then py_slice_to (py_strip (skipn k block)) (-3)
              else py_strip (skipn k block)).
Proof.
  intros Hs Hn. unfold clean_content.
  set (cb := py_strip (skipn k block)) in *.
  rewrite Hs, (py_find_char_absent _ _ Hn). reflexivity.
Qed.

Lemma fence_without_newline_witness :
  clean_content (s2l "  ```abc```") 0 =
    py_strip (if py_endswith (py_strip (skipn 0 (s2l "  ```abc```"))) fence
              then py_slice_to (py_strip (skipn 0 (s2l "  ```abc```"))) (-3)
              else py_strip (skipn 0 (s2l "  ```abc```"))).
Proof.
  apply fence_without_newline; vm_compute; [reflexivity|].
  intros H. repeat (destruct H as [H|H]; [discriminate H|]). exact H.
Defined.

(** ** The file system *)

Lemma lookup_dir_weaken (fs fs' : gmap (list pystr) node) cur cs d :
  fs ⊆ fs' -> lookup_dir fs cur cs = inl d -> lookup_dir fs' cur cs = inl d.
Proof.
  intros Hsub. revert cur. induction cs as [|c cs IH]; intros cur; simpl; [done|].
  destruct (fs !! step_dir cur c) as [[|]|] eqn:E; try discriminate.
  rewrite (lookup_weaken _ _ _ _ E Hsub). apply IH.
Qed.

Lemma lookup_dir_snoc (fs : gmap (list pystr) node) cur cs x :
  lookup_dir fs cur (cs ++ [x]) =
  match lookup_dir fs cur cs with
  | inl d => match fs !! step_dir d x with
             | Some Dir => inl (step_dir d x)
             | Some (File _) => inr ENOTDIR
             | None => inr ENOENT
             end
  | inr e => inr e
  end.
Proof.
  revert cur. induction cs as [|c cs IH]; intros cur; simpl.
  - by destruct (fs !! step_dir cur x) as [[|]|].
  - destruct (fs !! step_dir cur c) as [[|]|]; auto.
Qed.

(** [os.mkdir] only adds a directory, and the path then names one. *)
Lemma os_mkdir_ok (cwd : list pystr) (fs fs' : gmap (list pystr) node) (p : path) :
  os_mkdir cwd fs p = inl fs' -> fs ⊆ fs' /\ path_is_dir cwd fs' p = true.
Proof.
  unfold os_mkdir, path_is_dir. destruct (p_rparts p) as [|last init]; [discriminate|].
  destruct (lookup_dir fs (start_dir cwd p) (rev init)) as [d|] eqn:Hd; [|discriminate].
  case_bool_decide as Hdd; [discriminate|].
  destruct (fs !! (d ++ [last])) eqn:Hnew; [discriminate|].
  intros [= <-].
  assert (Hsub : fs ⊆ <[d ++ [last] := Dir]> fs) by (apply insert_subseteq; exact Hnew).
  split; [exact Hsub|].
  cbn [rev]. rewrite lookup_dir_snoc, (lookup_dir_weaken _ _ _ _ _ Hsub Hd).
  unfold step_dir. rewrite bool_decide_eq_false_2 by exact Hdd.
  by rewrite lookup_insert_eq.
Qed.

Lemma pl_mkdir_single_ok (cwd : list pystr) (fs fs' : gmap (list pystr) node) (p : path) :
  pl_mkdir_single cwd fs p true = inl fs' -> path_is_dir cwd fs' p = true.
Proof.
  unfold pl_mkdir_single. destruct (os_mkdir cwd fs p) as [fs1|[]] eqn:E;
    try (intros [= <-]; apply (os_mkdir_ok _ _ _ _ E)); try discriminate;
    cbn [andb]; destruct (path_is_dir cwd fs p) eqn:Hd; intros H; inversion H; subst; auto.
Qed.

(** [mkdir(parents=True, exist_ok=True)] succeeds only with the path
    naming a directory: every component resolves to a directory. *)
Lemma pl_mkdir_parents_ok (cwd : list pystr) (fs fs' : gmap (list pystr) node) ab rp :
  pl_mkdir_parents cwd fs ab rp true = inl fs' ->
  path_is_dir cwd fs' {| p_abs := ab; p_rparts := rp |} = true.
Proof.
  destruct rp as [|x par]; cbn [pl_mkdir_parents];
    destruct (os_mkdir cwd fs _) as [fs1|[]] eqn:E;
    try (intros [= <-]; apply (os_mkdir_ok _ _ _ _ E)); try discriminate;
    try (cbn [andb]; destruct (path_is_dir cwd fs _) eqn:Hd; intros H; inversion H; subst; auto; fail).
  destruct (pl_mkdir_parents cwd fs ab par true) as [fs2|e]; [|discriminate].
  destruct (pl_mkdir_single cwd fs2 _ true) eqn:Hs; [|discriminate].
  intros [= <-]. exact (pl_mkdir_single_ok _ _ _ _ Hs).
Qed.

(** C9: a file is written by [parse_and_write_files] only through lines
    109-111, and there [file_path.parent.mkdir(parents=True,
    exist_ok=True)] has succeeded first: in the file system [fsm] it
    leaves, the parent path names a directory, each of its components
    resolving to an existing directory; the write then stores the
    content at the target, replacing whatever file was there. *)
Theorem write_after_parents_exist (file_path_str content : pystr) (w w' : world) :
  write_generated_file file_path_str content w = (Ret tt, w') ->
  exists fsm last init d,
    pl_mkdir_parents (w_cwd w) (w_fs w) (p_abs (path_of_str file_path_str))
      (p_rparts (path_parent (path_of_str file_path_str))) true = inl fsm /\
    path_is_dir (w_cwd w) fsm (path_parent (path_of_str file_path_str)) = true /\
    p_rparts (path_of_str file_path_str) = last :: init /\
    lookup_dir fsm (start_dir (w_cwd w) (path_of_str file_path_str)) (rev init) = inl d /\
    w_fs w' = <[d ++ [last] := File content]> fsm /\
    w_fs w' !! (d ++ [last]) = Some (File content).
Proof.
  unfold write_generated_file. set (p := path_of_str file_path_str). unfold_M.
  destruct (pl_mkdir_parents (w_cwd w) (w_fs w) (p_abs (path_parent p))
              (p_rparts (path_parent p)) true) as [fsm|[e fse]] eqn:Hmk; [|discriminate].
  cbn [w_cwd w_fs set_fs].
  destruct (os_write_text (w_cwd w) fsm p content) as [fs2|e] eqn:Hwr; [|discriminate].
  intros [= <-].
  unfold os_write_text in Hwr.
  destruct (p_rparts p) as [|last init] eqn:Hp; [discriminate|].
  destruct (lookup_dir fsm (start_dir (w_cwd w) p) (rev init)) as [d|] eqn:Hd; [|discriminate].
  case_bool_decide; [discriminate|].
  assert (Hfs2 : fs2 = <[d ++ [last] := File content]> fsm)
    by (destruct (fsm !! (d ++ [last])) as [[|]|]; congruence).
  exists fsm, last, init, d. repeat split.
  - exact Hmk.
  - apply pl_mkdir_parents_ok in Hmk. exact Hmk.
  - exact Hd.
  - exact Hfs2.
  - rewrite Hfs2. apply lookup_insert_eq.
Qed.

Lemma write_after_parents_exist_witness :
  exists fsm last init d,
    pl_mkdir_parents (w_cwd example_world) (w_fs example_world) (p_abs (path_of_str example_path))
      (p_rparts (path_parent (path_of_str example_path))) true = inl fsm /\
    path_is_dir (w_cwd example_world) fsm (path_parent (path_of_str example_path)) = true /\
    p_rparts (path_of_str example_path) = last :: init /\
    lookup_dir fsm (start_dir (w_cwd example_world) (path_of_str example_path)) (rev init) = inl d /\
    w_fs example_written = <[d ++ [last] := File (s2l "hello")]> fsm /\
    w_fs example_written !! (d ++ [last]) = Some (File (s2l "hello")).
Proof.
  apply (write_after_parents_exist example_path (s2l "hello") example_world example_written).
  vm_compute. reflexivity.
Defined.

(** ** Claims on [main] and [call_llm] *)

(** C8: with [ISSUE_TITLE], [ISSUE_BODY] or [GCP_PROJECT_ID] unset, the
    script prints the error and exits with status 1; nothing else of the
    world changes: no request is sent, no file is touched. *)
Theorem missing_env_exits (w : world) :
  w_title w = None \/ w_body w = None \/ w_project w = None ->
  run_script w = (1%Z, add_out (LStr missing_env_message) w).
Proof.
  intros H.
  assert (Hm : env_missing (w_title w) || env_missing (w_body w) || env_missing (w_project w) = true)
    by (destruct H as [ -> | [ -> | -> ] ]; cbn; rewrite ?orb_true_r; reflexivity).
  unfold run_script, main. rewrite Hm. reflexivity.
Qed.

Lemma missing_env_exits_witness :
  run_script no_title_world = (1%Z, add_out (LStr missing_env_message) no_title_world).
Proof. apply missing_env_exits. left. reflexivity. Defined.

(** C6 (amended): when the first request fails at the transport level
    ([session.post] raising, [raise_for_status] raising for a 4xx or 5xx
    status, or [response.json()] failing), the script prints the error,
    and the response body when there is a response with an error status,
    and exits with status 1, after exactly one request and with the file
    system untouched. *)
Theorem first_call_failure_exits (w : world) :
  env_missing (w_title w) = false -> env_missing (w_body w) = false ->
  env_missing (w_project w) = false -> w_creds w = true -> w_sent w = [] ->
  transport_failure (w_server w 0) ->
  exists resp,
    fst (run_script w) = 1%Z /\
    w_fs (snd (run_script w)) = w_fs w /\
    w_sent (snd (run_script w)) = [code_gen_prompt (default [] (w_title w)) (default [] (w_body w))] /\
    w_out (snd (run_script w)) =
      w_out w ++ [step1_line; sending_line; LLlmError (RequestException resp)] ++
      match resp with Some r => [LRespBody (body_text r)] | None => [] end /\
    (forall r, w_server w 0 = Resp r -> (400 <= status r < 600)%Z -> resp = Some r).
Proof.
  intros Ht Hb Hp Hc Hs Hf.
  unfold run_script, main. rewrite Ht, Hb, Hp. cbn [orb].
  unfold get_gcp_auth_session, call_llm, call_llm_request, session_post, raise_for_status,
    response_json, request_handler. unfold_M. rewrite Hc.
  cbn -[code_gen_prompt test_gen_prompt]. rewrite Hs. cbn -[code_gen_prompt test_gen_prompt].
  destruct (w_server w 0) as [| |r] eqn:Hsrv; cbn -[code_gen_prompt test_gen_prompt].
  - exists None. repeat split; try reflexivity; try (rewrite Hs; reflexivity); try (rewrite <- !app_assoc; reflexivity). intros r' Hr'. discriminate.
  - exfalso. exact Hf.
  - destruct ((400 <=? status r)%Z && (status r <? 600)%Z) eqn:Hst;
      cbn -[code_gen_prompt test_gen_prompt].
    + exists (Some r). repeat split; try reflexivity; try (rewrite Hs; reflexivity); try (rewrite <- !app_assoc; reflexivity). intros r' [= ->] _. reflexivity.
    + destruct Hf as [Hr|Hj].
      * exfalso. apply andb_false_iff in Hst as [H|H]; [apply Z.leb_gt in H|apply Z.ltb_ge in H]; lia.
      * rewrite Hj. cbn -[code_gen_prompt test_gen_prompt]. exists None. repeat split; try reflexivity; try (rewrite Hs; reflexivity); try (rewrite <- !app_assoc; reflexivity).
        intros r' [= <-] Hr. exfalso.
        apply andb_false_iff in Hst as [H|H]; [apply Z.leb_gt in H|apply Z.ltb_ge in H]; lia.
Qed.

Lemma first_call_failure_exits_witness :
  exists resp,
    fst (run_script example_world) = 1%Z /\
    w_fs (snd (run_script example_world)) = w_fs example_world /\
    w_sent (snd (run_script example_world)) =
      [code_gen_prompt (default [] (w_title example_world)) (default [] (w_body example_world))] /\
    w_out (snd (run_script example_world)) =
      w_out example_world ++ [step1_line; sending_line; LLlmError (RequestException resp)] ++
      match resp with Some r => [LRespBody (body_text r)] | None => [] end /\
    (forall r, w_server example_world 0 = Resp r -> (400 <= status r < 600)%Z -> resp = Some r).
Proof.
  apply first_call_failure_exits; reflexivity || exact I.
Defined.

(** C6 as stated fails: [raise_for_status] raises only for 4xx and 5xx,
    so a first answer with status 300 (not 2xx) goes on like a success:
    the script sends the second request and exits with status 0. *)
Lemma first_call_status300_continues :
  (status (completion_response 300 (s2l "no files")) < 200 \/
   300 <= status (completion_response 300 (s2l "no files")))%Z /\
  w_server status300_world 0 = Resp (completion_response 300 (s2l "no files")) /\
  fst (run_script status300_world) = 0%Z /\
  length (w_sent (snd (run_script status300_world))) = 2.
Proof.
  split; [right; cbn; lia|]. split; [reflexivity|].
  vm_compute. split; reflexivity.
Qed.

(** C7 (amended): once the request has succeeded (status outside
    400-599, body decoded to [j]), a missing or empty [candidates] list,
    or a first candidate whose [content] lacks [parts] or has it empty,
    raises [ValueError]; the handler prints the error and the full
    response and exits with status 1.  When the candidate, its content
    and the first part are JSON objects, [call_llm] returns the part's
    [text], or [""] when absent. *)
Theorem call_llm_response_cases (prompt : pystr) (w : world) (r : http_response) (j : json) :
  w_server w (length (w_sent w)) = Resp r ->
  ((400 <=? status r) && (status r <? 600))%Z = false ->
  body_json r = Some j ->
  (forall l,
     j = JObj l ->
     assoc_last l (s2l "candidates") = None \/ assoc_last l (s2l "candidates") = Some (JArr []) ->
     call_llm prompt w =
       (Exit 1, add_out (LFullResponse j)
                  (add_out (LParseError (ValueError (s2l "No candidates found in LLM response.")))
                     (add_sent prompt (add_out sending_line w))))) /\
  (forall l lc cs,
     j = JObj l ->
     assoc_last l (s2l "candidates") = Some (JArr (JObj lc :: cs)) ->
     (assoc_last lc (s2l "content") = None \/
      exists lp, assoc_last lc (s2l "content") = Some (JObj lp) /\
                 (assoc_last lp (s2l "parts") = None \/
                  assoc_last lp (s2l "parts") = Some (JArr []))) ->
     call_llm prompt w =
       (Exit 1, add_out (LFullResponse j)
                  (add_out (LParseError (ValueError (s2l "No parts found in LLM response content.")))
                     (add_sent prompt (add_out sending_line w))))) /\
  (forall l lc cs lp lt ps,
     j = JObj l ->
     assoc_last l (s2l "candidates") = Some (JArr (JObj lc :: cs)) ->
     assoc_last lc (s2l "content") = Some (JObj lp) ->
     assoc_last lp (s2l "parts") = Some (JArr (JObj lt :: ps)) ->
     call_llm prompt w =
       (Ret (default (JStr []) (assoc_last lt (s2l "text"))),
        add_out received_line (add_sent prompt (add_out sending_line w)))).
Proof.
  intros Hsrv Hst Hj.
  unfold call_llm, call_llm_request, session_post, raise_for_status, response_json,
    request_handler, call_llm_extract, parse_handler, py_get, py_getitem0.
  unfold_M. cbn -[assoc_last]. rewrite Hsrv. cbn -[assoc_last]. rewrite Hst, Hj.
  cbn -[assoc_last].
  split; [|split].
  - intros l -> Hc. destruct Hc as [Hc|Hc]; rewrite Hc; reflexivity.
  - intros l lc cs -> Hc Hct. rewrite Hc. cbn -[assoc_last].
    destruct Hct as [Hct|(lp & Hct & Hp)]; rewrite Hct; cbn -[assoc_last];
      [reflexivity|]. destruct Hp as [Hp|Hp]; rewrite Hp; reflexivity.
  - intros l lc cs lp lt ps -> Hc Hct Hp. rewrite Hc. cbn -[assoc_last].
    rewrite Hct. cbn -[assoc_last]. rewrite Hp. cbn -[assoc_last].
    destruct (assoc_last lt _); reflexivity.
Qed.

Lemma call_llm_response_cases_witness :
  call_llm (s2l "p") (answering_world (completion_json (s2l "hello"))) =
    (Ret (JStr (s2l "hello")),
     add_out received_line (add_sent (s2l "p") (add_out sending_line
       (answering_world (completion_json (s2l "hello")))))).
Proof.
  destruct (call_llm_response_cases (s2l "p") (answering_world (completion_json (s2l "hello")))
              {| status := 200; body_text := s2l "{...}";
                 body_json := Some (completion_json (s2l "hello")) |}
              (completion_json (s2l "hello")) eq_refl eq_refl eq_refl) as (_ & _ & H).
  exact (H _ _ [] _ _ [] eq_refl eq_refl eq_refl eq_refl).
Defined.

(** C7 as stated fails: with a first part that is a string, the
    structure checks pass and [parts[0].get] raises [AttributeError],
    which neither handler catches: [call_llm] does not return the part. *)
Lemma call_llm_string_part_raises :
  fst (call_llm (s2l "p") (answering_world string_part_json)) = Raise AttributeError.
Proof. vm_compute. reflexivity. Qed.

(** ** Composition: what each part of the script can do to the world *)

Create HintDb pyrun.

Lemma exits_ret {A} (a : A) : exits_only_1 (mret a).
Proof. intros w c [=]. Qed.
Lemma exits_print l : exits_only_1 (print l).
Proof. intros w c [=]. Qed.
Lemma exits_raise {A} e : exits_only_1 (@raise A e).
Proof. intros w c [=]. Qed.
Lemma exits_sys_exit_1 {A} : exits_only_1 (@sys_exit A 1).
Proof. intros w c [= <-]. reflexivity. Qed.
Lemma exits_bind {A B} (m : M A) (f : A -> M B) :
  exits_only_1 m -> (forall a, exits_only_1 (f a)) -> exits_only_1 (m ≫= f).
Proof.
  intros Hm Hf w c. unfold_M. destruct (m w) as [[a|c'|e] w'] eqn:E; cbn.
  - apply Hf.
  - intros [= <-]. apply (Hm w). by rewrite E.
  - discriminate.
Qed.
Lemma exits_try {A} (m : M A) h :
  exits_only_1 m -> (forall e k, h e = Some k -> exits_only_1 k) -> exits_only_1 (try_except m h).
Proof.
  intros Hm Hh w c. unfold try_except. destruct (m w) as [[a|c'|e] w'] eqn:E.
  - discriminate.
  - intros [= <-]. apply (Hm w). by rewrite E.
  - destruct (h e) as [k|] eqn:Eh; [apply (Hh _ _ Eh)|discriminate].
Qed.
Lemma exits_fs_call f : exits_only_1 (fs_call f).
Proof. intros w c. unfold fs_call. by destruct (f _ _). Qed.

Lemma exits_fs_call_partial f : exits_only_1 (fs_call_partial f).
Proof. intros w c. unfold fs_call_partial. by destruct (f _ _) as [|[]]. Qed.
Lemma exits_session_post p : exits_only_1 (session_post p).
Proof. intros w c [=]. Qed.

Lemma sent_ret {A} (a : A) : keeps_sent (mret a).
Proof. intros w. reflexivity. Qed.
Lemma sent_print l : keeps_sent (print l).
Proof. intros w. reflexivity. Qed.
Lemma sent_raise {A} e : keeps_sent (@raise A e).
Proof. intros w. reflexivity. Qed.
Lemma sent_sys_exit {A} c : keeps_sent (@sys_exit A c).
Proof. intros w. reflexivity. Qed.
Lemma sent_bind {A B} (m : M A) (f : A -> M B) :
  keeps_sent m -> (forall a, keeps_sent (f a)) -> keeps_sent (m ≫= f).
Proof.
  intros Hm Hf w. unfold_M. specialize (Hm w).
  destruct (m w) as [[a|c'|e] w'] eqn:E; cbn in *; rewrite ?Hf; exact Hm.
Qed.
Lemma sent_try {A} (m : M A) h :
  keeps_sent m -> (forall e k, h e = Some k -> keeps_sent k) -> keeps_sent (try_except m h).
Proof.
  intros Hm Hh w. unfold try_except. specialize (Hm w).
  destruct (m w) as [[a|c'|e] w'] eqn:E; cbn in *; try exact Hm.
  destruct (h e) as [k|] eqn:Eh; [rewrite (Hh _ _ Eh)|]; exact Hm.
Qed.
Lemma sent_fs_call f : keeps_sent (fs_call f).
Proof. intros w. unfold fs_call. by destruct (f _ _). Qed.

Lemma sent_fs_call_partial f : keeps_sent (fs_call_partial f).
Proof. intros w. unfold fs_call_partial. by destruct (f _ _) as [|[]]. Qed.

Lemma fs_ret {A} (a : A) : keeps_fs (mret a).
Proof. intros w. reflexivity. Qed.
Lemma fs_print l : keeps_fs (print l).
Proof. intros w. reflexivity. Qed.
Lemma fs_raise {A} e : keeps_fs (@raise A e).
Proof. intros w. reflexivity. Qed.
Lemma fs_sys_exit {A} c : keeps_fs (@sys_exit A c).
Proof. intros w. reflexivity. Qed.
Lemma fs_bind {A B} (m : M A) (f : A -> M B) :
  keeps_fs m -> (forall a, keeps_fs (f a)) -> keeps_fs (m ≫= f).
Proof.
  intros Hm Hf w. unfold_M. specialize (Hm w).
  destruct (m w) as [[a|c'|e] w'] eqn:E; cbn in *; rewrite ?Hf; exact Hm.
Qed.
Lemma fs_try {A} (m : M A) h :
  keeps_fs m -> (forall e k, h e = Some k -> keeps_fs k) -> keeps_fs (try_except m h).
Proof.
  intros Hm Hh w. unfold try_except. specialize (Hm w).
  destruct (m w) as [[a|c'|e] w'] eqn:E; cbn in *; try exact Hm.
  destruct (h e) as [k|] eqn:Eh; [rewrite (Hh _ _ Eh)|]; exact Hm.
Qed.
Lemma fs_session_post p : keeps_fs (session_post p).
Proof. intros w. reflexivity. Qed.

#[local] Hint Resolve exits_ret exits_print exits_raise exits_sys_exit_1 exits_fs_call
  exits_fs_call_partial exits_session_post sent_ret sent_print sent_raise sent_sys_exit
  sent_fs_call sent_fs_call_partial
  fs_ret fs_print fs_raise fs_sys_exit fs_session_post : pyrun.

(** Decompose a monadic program into the steps above. *)
Ltac run_steps :=
  repeat (intros; cbv beta in *; first
    [ solve [eauto with pyrun]
    | match goal with H : Some _ = Some _ |- _ => injection H as <- end
    | match goal with H : None = Some _ |- _ => discriminate H end
    | simple apply exits_bind | simple apply sent_bind | simple apply fs_bind
    | simple apply exits_try | simple apply sent_try | simple apply fs_try
    | match goal with |- context [match ?x with _ => _ end] => destruct x end ]).

Lemma request_handler_steps {A} e (k : M A) :
  request_handler e = Some k -> exits_only_1 k /\ keeps_sent k /\ keeps_fs k.
Proof. unfold request_handler. destruct e; intros H; try discriminate; repeat split; run_steps. Qed.

Lemma parse_handler_steps {A} d e (k : M A) :
  parse_handler d e = Some k -> exits_only_1 k /\ keeps_sent k /\ keeps_fs k.
Proof. unfold parse_handler. destruct e; intros H; try discriminate; repeat split; run_steps. Qed.

Lemma py_get_steps d k dflt :
  exits_only_1 (py_get d k dflt) /\ keeps_sent (py_get d k dflt) /\ keeps_fs (py_get d k dflt).
Proof. unfold py_get. split; [|split]; run_steps. Qed.

Lemma py_getitem0_steps v :
  exits_only_1 (py_getitem0 v) /\ keeps_sent (py_getitem0 v) /\ keeps_fs (py_getitem0 v).
Proof. unfold py_getitem0. split; [|split]; run_steps. Qed.

#[local] Hint Extern 1 (exits_only_1 _) =>
  match goal with
  | H : request_handler _ = Some _ |- _ => exact (proj1 (request_handler_steps _ _ H))
  | H : parse_handler _ _ = Some _ |- _ => exact (proj1 (parse_handler_steps _ _ _ H))
  end : pyrun.
#[local] Hint Extern 1 (keeps_sent _) =>
  match goal with
  | H : request_handler _ = Some _ |- _ => exact (proj1 (proj2 (request_handler_steps _ _ H)))
  | H : parse_handler _ _ = Some _ |- _ => exact (proj1 (proj2 (parse_handler_steps _ _ _ H)))
  end : pyrun.
#[local] Hint Extern 1 (keeps_fs _) =>
  match goal with
  | H : request_handler _ = Some _ |- _ => exact (proj2 (proj2 (request_handler_steps _ _ H)))
  | H : parse_handler _ _ = Some _ |- _ => exact (proj2 (proj2 (parse_handler_steps _ _ _ H)))
  end : pyrun.
#[local] Hint Extern 1 (exits_only_1 (py_get _ _ _)) => exact (proj1 (py_get_steps _ _ _)) : pyrun.
#[local] Hint Extern 1 (keeps_sent (py_get _ _ _)) => exact (proj1 (proj2 (py_get_steps _ _ _))) : pyrun.
#[local] Hint Extern 1 (keeps_fs (py_get _ _ _)) => exact (proj2 (proj2 (py_get_steps _ _ _))) : pyrun.
#[local] Hint Extern 1 (exits_only_1 (py_getitem0 _)) => exact (proj1 (py_getitem0_steps _)) : pyrun.
#[local] Hint Extern 1 (keeps_sent (py_getitem0 _)) => exact (proj1 (proj2 (py_getitem0_steps _))) : pyrun.
#[local] Hint Extern 1 (keeps_fs (py_getitem0 _)) => exact (proj2 (proj2 (py_getitem0_steps _))) : pyrun.

Lemma call_llm_request_steps p :
  exits_only_1 (call_llm_request p) /\ keeps_fs (call_llm_request p).
Proof. unfold call_llm_request, raise_for_status, response_json. split; run_steps. Qed.

Lemma call_llm_extract_steps d :
  exits_only_1 (call_llm_extract d) /\ keeps_sent (call_llm_extract d) /\
  keeps_fs (call_llm_extract d).
Proof. unfold call_llm_extract. repeat split; run_steps. Qed.

#[local] Hint Extern 1 (exits_only_1 (call_llm_request _)) => exact (proj1 (call_llm_request_steps _)) : pyrun.
#[local] Hint Extern 1 (keeps_fs (call_llm_request _)) => exact (proj2 (call_llm_request_steps _)) : pyrun.
#[local] Hint Extern 1 (exits_only_1 (call_llm_extract _)) => exact (proj1 (call_llm_extract_steps _)) : pyrun.
#[local] Hint Extern 1 (keeps_sent (call_llm_extract _)) => exact (proj1 (proj2 (call_llm_extract_steps _))) : pyrun.
#[local] Hint Extern 1 (keeps_fs (call_llm_extract _)) => exact (proj2 (proj2 (call_llm_extract_steps _))) : pyrun.

Lemma call_llm_steps p : exits_only_1 (call_llm p) /\ keeps_fs (call_llm p).
Proof. unfold call_llm. split; run_steps. Qed.

Lemma write_generated_file_steps s c :
  exits_only_1 (write_generated_file s c) /\ keeps_sent (write_generated_file s c).
Proof. unfold write_generated_file. split; run_steps. Qed.

#[local] Hint Extern 1 (exits_only_1 (write_generated_file _ _)) =>
  exact (proj1 (write_generated_file_steps _ _)) : pyrun.
#[local] Hint Extern 1 (keeps_sent (write_generated_file _ _)) =>
  exact (proj2 (write_generated_file_steps _ _)) : pyrun.

(** No block changes the file system: a declared path is always empty,
    so the write fails before anything is created. *)
Lemma process_block_keeps_fs b : keeps_fs (process_block b).
Proof.
  intros w. destruct (bool_decide (py_strip b = [])) eqn:Hb.
  - unfold process_block. rewrite Hb. reflexivity.
  - apply bool_decide_eq_false in Hb.
    destruct (re_search file_path_pattern b) as [mo|] eqn:Hm.
    + rewrite (process_block_matched b mo w Hb Hm). reflexivity.
    + unfold process_block. rewrite bool_decide_eq_false_2 by exact Hb. rewrite Hm. reflexivity.
Qed.

Lemma process_block_steps b :
  exits_only_1 (process_block b) /\ keeps_sent (process_block b) /\ keeps_fs (process_block b).
Proof.
  split; [|split; [|apply process_block_keeps_fs]]; unfold process_block; run_steps.
Qed.

#[local] Hint Extern 1 (exits_only_1 (process_block _)) => exact (proj1 (process_block_steps _)) : pyrun.
#[local] Hint Extern 1 (keeps_sent (process_block _)) => exact (proj1 (proj2 (process_block_steps _))) : pyrun.
#[local] Hint Extern 1 (keeps_fs (process_block _)) => exact (proj2 (proj2 (process_block_steps _))) : pyrun.

Lemma for_blocks_steps bs :
  exits_only_1 (for_blocks bs) /\ keeps_sent (for_blocks bs) /\ keeps_fs (for_blocks bs).
Proof.
  induction bs as [|b bs IH]; cbn [for_blocks]; [repeat split; run_steps|].
  destruct IH as (IH1 & IH2 & IH3). repeat split; run_steps.
Qed.

#[local] Hint Extern 1 (exits_only_1 (for_blocks _)) => exact (proj1 (for_blocks_steps _)) : pyrun.
#[local] Hint Extern 1 (keeps_sent (for_blocks _)) => exact (proj1 (proj2 (for_blocks_steps _))) : pyrun.
#[local] Hint Extern 1 (keeps_fs (for_blocks _)) => exact (proj2 (proj2 (for_blocks_steps _))) : pyrun.

Lemma parse_and_write_value_steps v :
  exits_only_1 (parse_and_write_value v) /\ keeps_sent (parse_and_write_value v) /\
  keeps_fs (parse_and_write_value v).
Proof.
  unfold parse_and_write_value, parse_and_write_files.
  repeat split; destruct v; run_steps.
Qed.

#[local] Hint Extern 1 (exits_only_1 (call_llm _)) => exact (proj1 (call_llm_steps _)) : pyrun.
#[local] Hint Extern 1 (keeps_fs (call_llm _)) => exact (proj2 (call_llm_steps _)) : pyrun.
#[local] Hint Extern 1 (exits_only_1 (parse_and_write_value _)) =>
  exact (proj1 (parse_and_write_value_steps _)) : pyrun.
#[local] Hint Extern 1 (keeps_sent (parse_and_write_value _)) =>
  exact (proj1 (proj2 (parse_and_write_value_steps _))) : pyrun.
#[local] Hint Extern 1 (keeps_fs (parse_and_write_value _)) =>
  exact (proj2 (proj2 (parse_and_write_value_steps _))) : pyrun.

Lemma get_gcp_auth_session_steps :
  exits_only_1 get_gcp_auth_session /\ keeps_sent get_gcp_auth_session /\
  keeps_fs get_gcp_auth_session.
Proof.
  unfold get_gcp_auth_session. repeat split; intros w; [intros c|..]; destruct (w_creds w);
    unfold_M; cbn; first [reflexivity | discriminate | congruence].
Qed.

#[local] Hint Extern 1 (exits_only_1 get_gcp_auth_session) => exact (proj1 get_gcp_auth_session_steps) : pyrun.
#[local] Hint Extern 1 (keeps_fs get_gcp_auth_session) => exact (proj2 (proj2 get_gcp_auth_session_steps)) : pyrun.

Lemma main_steps : exits_only_1 main /\ keeps_fs main.
Proof.
  split.
  - intros w c. unfold main. destruct (_ || _ || _);
      match goal with |- fst (?m w) = Exit c -> _ => enough (H : exits_only_1 m) by exact (H w c) end;
      run_steps.
  - intros w. unfold main. destruct (_ || _ || _);
      match goal with |- w_fs (snd (?m w)) = _ => enough (H : keeps_fs m) by exact (H w) end;
      run_steps.
Qed.

(** ** Helpers on runs *)

Lemma mbind_unfold {A B} (m : M A) (f : A -> M B) w :
  (m ≫= f) w = match m w with
               | (Ret a, w') => f a w'
               | (Exit c, w') => (Exit c, w')
               | (Raise e, w') => (Raise e, w')
               end.
Proof. reflexivity. Qed.

Lemma print_bind {B} l (f : unit -> M B) w : (print l ≫= f) w = f tt (add_out l w).
Proof. reflexivity. Qed.

Lemma bind_ret_inv {A B} (m : M A) (f : A -> M B) w b w' :
  (m ≫= f) w = (Ret b, w') -> exists a w1, m w = (Ret a, w1) /\ f a w1 = (Ret b, w').
Proof. rewrite mbind_unfold. destruct (m w) as [[a|c|e] w1]; eauto; discriminate. Qed.

Lemma add_outs_nil w : add_outs [] w = w.
Proof. destruct w. unfold add_outs. cbn. by rewrite app_nil_r. Qed.

Lemma add_outs_app l1 l2 w : add_outs l2 (add_outs l1 w) = add_outs (l1 ++ l2) w.
Proof. destruct w. unfold add_outs. cbn. by rewrite app_assoc. Qed.

Lemma add_out_outs l w : add_out l w = add_outs [l] w.
Proof. reflexivity. Qed.

(** The request part of [call_llm] posts the prompt once, whatever happens. *)
Lemma call_llm_request_sends p w :
  w_sent (snd (try_except (call_llm_request p) request_handler w)) = w_sent w ++ [p].
Proof.
  unfold try_except, call_llm_request, session_post, raise_for_status, response_json,
    request_handler.
  rewrite mbind_unfold. cbn [fst snd].
  destruct (w_server w (length (w_sent w))) as [| |r]; [reflexivity|reflexivity|].
  rewrite mbind_unfold.
  destruct (((400 <=? status r) && (status r <? 600))%Z); [reflexivity|].
  destruct (body_json r); reflexivity.
Qed.

Lemma call_llm_sends p w : w_sent (snd (call_llm p w)) = w_sent w ++ [p].
Proof.
  unfold call_llm. rewrite print_bind, mbind_unfold.
  pose proof (call_llm_request_sends p (add_out sending_line w)) as Hs.
  destruct (try_except (call_llm_request p) request_handler _) as [[a|c|e] w1]; cbn in *;
    [|exact Hs|exact Hs].
  rewrite <- Hs. apply sent_try.
  - exact (proj1 (proj2 (call_llm_extract_steps a))).
  - intros e k Hk. exact (proj1 (proj2 (parse_handler_steps _ _ _ Hk))).
Qed.

Lemma no_path_warnings_cons b bs :
  no_path_warnings (b :: bs) = no_path_warnings [b] ++ no_path_warnings bs.
Proof. unfold no_path_warnings. cbn. by destruct (bool_decide _). Qed.

Lemma process_block_unmatched b w :
  py_strip b = [] \/ re_search file_path_pattern b = None ->
  process_block b w = (Ret tt, add_outs (no_path_warnings [b]) w).
Proof.
  intros H. unfold process_block, no_path_warnings.
  destruct (decide (py_strip b = [])) as [Hb|Hb].
  - simpl. rewrite !bool_decide_eq_true_2 by exact Hb. simpl. by rewrite add_outs_nil.
  - simpl. rewrite !bool_decide_eq_false_2 by exact Hb. simpl.
    destruct H as [H|H]; [contradiction|]. rewrite H. reflexivity.
Qed.

Lemma for_blocks_app_unmatched pre rest w :
  Forall (fun b => py_strip b = [] \/ re_search file_path_pattern b = None) pre ->
  for_blocks (pre ++ rest) w = for_blocks rest (add_outs (no_path_warnings pre) w).
Proof.
  intros Hpre. revert w. induction Hpre as [|b pre Hb Hpre IH]; intros w.
  - by rewrite add_outs_nil.
  - cbn [app for_blocks]. rewrite mbind_unfold, (process_block_unmatched _ _ Hb), IH.
    by rewrite add_outs_app, <- no_path_warnings_cons.
Qed.

(** * Further properties of the script *)

(** ** [get_gcp_auth_session] and [main] *)

(** X1: with the three variables set but no Application Default
    Credentials, the script prints the two credential messages and exits
    with status 1 before sending any request or touching a file. *)
Theorem no_credentials_exits (w : world) :
  env_missing (w_title w) = false -> env_missing (w_body w) = false ->
  env_missing (w_project w) = false -> w_creds w = false ->
  run_script w = (1%Z, add_outs creds_error_lines w).
Proof.
  intros Ht Hb Hp Hc. unfold run_script, main. rewrite Ht, Hb, Hp. cbn [orb].
  rewrite mbind_unfold. unfold get_gcp_auth_session. rewrite Hc, !print_bind.
  change (add_out ?l2 (add_out ?l1 w)) with (add_outs [l2] (add_outs [l1] w)).
  rewrite add_outs_app. reflexivity.
Qed.

Lemma no_credentials_exits_witness :
  run_script no_creds_world = (1%Z, add_outs creds_error_lines no_creds_world).
Proof. apply no_credentials_exits; reflexivity. Defined.

(** X2: every [call_llm] calls [session.post] exactly once, with its
    prompt (the script itself never retries, also when the request or the
    parsing fails), and leaves the file system as it is. *)
Theorem call_llm_posts_once (prompt : pystr) (w : world) :
  w_sent (snd (call_llm prompt w)) = w_sent w ++ [prompt] /\
  w_fs (snd (call_llm prompt w)) = w_fs w.
Proof. split; [apply call_llm_sends | apply (proj2 (call_llm_steps prompt))]. Qed.

(** X3: the script's exit status is always 0 or 1: every [sys.exit] is
    [sys.exit(1)], and an uncaught exception exits with 1. *)
Theorem run_script_status (w : world) :
  fst (run_script w) = 0%Z \/ fst (run_script w) = 1%Z.
Proof.
  unfold run_script. cbn [fst]. destruct (main w) as [[u|c|e] w'] eqn:E; cbn; auto.
  right. apply (proj1 main_steps w c). by rewrite E.
Qed.

(** X4: whatever the environment, the credentials and the server's
    answers, a run of the script leaves the file system exactly as it
    found it: no directory is created and no file is written. *)
Theorem run_script_keeps_fs (w : world) : w_fs (snd (run_script w)) = w_fs w.
Proof. apply (proj2 main_steps). Qed.

(** X5: a run that exits with status 0 has sent exactly two requests:
    first the code-generation prompt built from the issue, then the
    test-generation prompt embedding the text [s] that the first request
    returned; its last output line is the success message. *)
Theorem success_sends_two_prompts (w w' : world) :
  w_sent w = [] -> run_script w = (0%Z, w') ->
  exists s w2,
    call_llm (code_gen_prompt (default [] (w_title w)) (default [] (w_body w)))
      (add_out step1_line w) = (Ret (JStr s), w2) /\
    w_sent w' = [code_gen_prompt (default [] (w_title w)) (default [] (w_body w));
                 test_gen_prompt s] /\
    last (w_out w') = Some finished_line.
Proof.
  intros Hs Hrun. unfold run_script in Hrun. injection Hrun as H0 Hw'.
  assert (Hm : main w = (Ret tt, w')).
  { destruct (main w) as [[u|c|e] w''] eqn:E; cbn in H0, Hw'; [by destruct u; subst| |discriminate].
    exfalso. assert (c = 1%Z) by (apply (proj1 main_steps w c); by rewrite E). lia. }
  clear H0 Hw'. unfold main in Hm.
  destruct (_ || _ || _); [rewrite print_bind in Hm; discriminate|].
  set (p1 := code_gen_prompt _ _) in Hm |- *.
  apply bind_ret_inv in Hm as (u0 & w0 & Hg & Hm).
  unfold get_gcp_auth_session in Hg.
  destruct (w_creds w); [injection Hg as <- <-|rewrite print_bind in Hg; discriminate].
  rewrite print_bind in Hm.
  apply bind_ret_inv in Hm as (v1 & w2 & Hc1 & Hm).
  apply bind_ret_inv in Hm as (u3 & w3 & Hpv1 & Hm).
  destruct v1 as [| | |s| |];
    try (unfold parse_and_write_value in Hpv1; rewrite print_bind in Hpv1; discriminate).
  exists s, w2. split; [exact Hc1|].
  rewrite !print_bind in Hm.
  apply bind_ret_inv in Hm as (v2 & w6 & Hc2 & Hm).
  apply bind_ret_inv in Hm as (u7 & w7 & Hpv2 & Hm).
  rewrite !print_bind in Hm. injection Hm as <-.
  match type of Hc1 with call_llm _ ?x = _ => pose proof (call_llm_sends p1 x) as S1 end.
  rewrite Hc1 in S1.
  pose proof (proj1 (proj2 (parse_and_write_value_steps (JStr s))) w2) as S2. rewrite Hpv1 in S2.
  match type of Hc2 with call_llm ?q ?x = _ => pose proof (call_llm_sends q x) as S3 end.
  rewrite Hc2 in S3.
  pose proof (proj1 (proj2 (parse_and_write_value_steps v2)) w6) as S4. rewrite Hpv2 in S4.
  cbn in S1, S2, S3, S4. split.
  - cbn. rewrite S4, S3, S2, S1, Hs. reflexivity.
  - cbn. apply last_snoc.
Qed.

Lemma success_sends_two_prompts_witness :
  exists s w2,
    call_llm (code_gen_prompt (default [] (w_title (answering_world (completion_json (s2l "no files")))))
                              (default [] (w_body (answering_world (completion_json (s2l "no files"))))))
      (add_out step1_line (answering_world (completion_json (s2l "no files")))) = (Ret (JStr s), w2) /\
    w_sent (snd (run_script (answering_world (completion_json (s2l "no files"))))) =
      [code_gen_prompt (default [] (w_title (answering_world (completion_json (s2l "no files")))))
                       (default [] (w_body (answering_world (completion_json (s2l "no files")))));
       test_gen_prompt s] /\
    last (w_out (snd (run_script (answering_world (completion_json (s2l "no files")))))) =
      Some finished_line.
Proof.
  apply success_sends_two_prompts; [reflexivity|].
  vm_compute. reflexivity.
Defined.

(** ** [parse_and_write_files] *)

(** X6: when no block of the response declares a path (each one is
    blank or has no match of the pattern), [parse_and_write_files]
    returns normally after printing its header and one warning, with the
    block's first 200 characters, per non-blank block, in order. *)
Theorem parse_without_declarations (response_text : pystr) (w : world) :
  Forall (fun b => py_strip b = [] \/ re_search file_path_pattern b = None)
         (py_split response_text FILE_SEPARATOR) ->
  parse_and_write_files response_text w =
    (Ret tt, add_outs (parsing_line :: no_path_warnings (py_split response_text FILE_SEPARATOR)) w).
Proof.
  intros H. unfold parse_and_write_files. rewrite print_bind.
  rewrite <- (app_nil_r (py_split response_text FILE_SEPARATOR)) at 1.
  rewrite (for_blocks_app_unmatched _ _ _ H). cbn.
  by rewrite add_out_outs, add_outs_app.
Qed.

Lemma parse_without_declarations_witness :
  parse_and_write_files undeclared_text example_world =
    (Ret tt, add_outs (parsing_line :: no_path_warnings (py_split undeclared_text FILE_SEPARATOR))
               example_world).
Proof.
  apply parse_without_declarations.
  replace (py_split undeclared_text FILE_SEPARATOR)
    with [s2l "Here is the code." ++ [nl]; s2l "  " ++ [nl]] by (vm_compute; reflexivity).
  constructor; [right; vm_compute; reflexivity|].
  constructor; [left; vm_compute; reflexivity|constructor].
Defined.

(** X7: blocks are handled in order, and the first non-blank block in
    which the pattern matches ends the run: the blocks before it only
    print their warnings, this block prints the write error for the
    empty path, the process exits with status 1, and the blocks after it
    are never looked at. *)
Theorem parse_stops_at_first_declaration (response_text : pystr) (pre : list pystr)
    (b : pystr) (post : list pystr) (w : world) :
  py_split response_text FILE_SEPARATOR = pre ++ b :: post ->
  Forall (fun b => py_strip b = [] \/ re_search file_path_pattern b = None) pre ->
  py_strip b <> [] -> re_search file_path_pattern b <> None ->
  parse_and_write_files response_text w =
    (Exit 1, add_outs (parsing_line :: no_path_warnings pre ++
                       [LWriteError [] (OSError EISDIR)]) w).
Proof.
  intros Hs Hpre Hb Hm. destruct (re_search file_path_pattern b) as [mo|] eqn:E; [|done].
  unfold parse_and_write_files. rewrite print_bind, Hs, (for_blocks_app_unmatched _ _ _ Hpre).
  cbn [for_blocks]. rewrite mbind_unfold, (process_block_matched _ _ _ Hb E).
  by rewrite !add_out_outs, !add_outs_app.
Qed.

Lemma parse_stops_at_first_declaration_witness :
  parse_and_write_files declared_text example_world =
    (Exit 1, add_outs (parsing_line :: no_path_warnings [s2l "Intro" ++ [nl]] ++
                       [LWriteError [] (OSError EISDIR)]) example_world).
Proof.
  apply (parse_stops_at_first_declaration declared_text [s2l "Intro" ++ [nl]] hash_block
           [s2l "tail"]).
  - vm_compute. reflexivity.
  - constructor; [right; vm_compute; reflexivity|constructor].
  - vm_compute. discriminate.
  - vm_compute. discriminate.
Defined.

(** ** [call_llm] *)

(** X8: a request that fails at the transport level ends the process
    from inside [call_llm], whichever call it is: a connection error
    prints the error; a 4xx or 5xx status prints the error and then the
    response body; a body that is not JSON prints the error alone.  Each
    time the status is 1 and the prompt was posted once. *)
Theorem call_llm_request_errors (prompt : pystr) (w : world) :
  (w_server w (length (w_sent w)) = ConnError ->
   call_llm prompt w =
     (Exit 1, add_out (LLlmError (RequestException None))
                (add_sent prompt (add_out sending_line w)))) /\
  (forall r, w_server w (length (w_sent w)) = Resp r -> (400 <= status r < 600)%Z ->
   call_llm prompt w =
     (Exit 1, add_out (LRespBody (body_text r))
                (add_out (LLlmError (RequestException (Some r)))
                   (add_sent prompt (add_out sending_line w))))) /\
  (forall r, w_server w (length (w_sent w)) = Resp r -> ~ (400 <= status r < 600)%Z ->
   body_json r = None ->
   call_llm prompt w =
     (Exit 1, add_out (LLlmError (RequestException None))
                (add_sent prompt (add_out sending_line w)))).
Proof.
  unfold call_llm, call_llm_request, session_post, raise_for_status, response_json,
    request_handler.
  split; [|split].
  - intros H. unfold_M. cbn. rewrite H. reflexivity.
  - intros r H Hst. unfold_M. cbn. rewrite H.
    replace ((400 <=? status r) && (status r <? 600))%Z with true
      by (symmetry; apply andb_true_intro; split; [apply Z.leb_le | apply Z.ltb_lt]; lia).
    reflexivity.
  - intros r H Hst Hj. unfold_M. cbn. rewrite H.
    replace ((400 <=? status r) && (status r <? 600))%Z with false
      by (symmetry; apply andb_false_iff;
          destruct (Z.leb_spec 400 (status r)); destruct (Z.ltb_spec (status r) 600); auto; lia).
    rewrite Hj. reflexivity.
Qed.

Lemma call_llm_request_errors_witness :
  call_llm (s2l "p") error500_world =
    (Exit 1, add_out (LRespBody (s2l "overloaded"))
               (add_out (LLlmError (RequestException
                          (Some {| status := 500; body_text := s2l "overloaded"; body_json := None |})))
                  (add_sent (s2l "p") (add_out sending_line error500_world)))).
Proof.
  destruct (call_llm_request_errors (s2l "p") error500_world) as (_ & H & _).
  apply (H {| status := 500; body_text := s2l "overloaded"; body_json := None |}).
  - reflexivity.
  - cbn. lia.
Defined.

(** ** [str.split], [str.strip] and the block content *)

Lemma split_go_ne sep s skip cur : split_go sep s skip cur <> [].
Proof.
  revert skip cur. induction s as [|c s IH]; intros [|k] cur; cbn; try done.
  by destruct (prefixb sep (c :: s)).
Qed.

Lemma py_join_cons sep x l : l <> [] -> py_join sep (x :: l) = x ++ sep ++ py_join sep l.
Proof. by destruct l. Qed.

Lemma prefixb_app_skipn p s : prefixb p s = true -> p ++ skipn (length p) s = s.
Proof.
  revert s. induction p as [|a p IH]; intros [|b s]; cbn; try done.
  unfold ascii_eqb. destruct (ascii_dec a b) as [->|]; cbn; [|done].
  intros H. f_equal. by apply IH.
Qed.

Lemma split_go_join sep s skip cur :
  sep <> [] -> py_join sep (split_go sep s skip cur) = rev cur ++ skipn skip s.
Proof.
  intros Hsep. revert skip cur. induction s as [|c s IH]; intros skip cur.
  - cbn. destruct skip; by rewrite app_nil_r.
  - destruct skip as [|k]; cbn [split_go skipn]; [|apply IH].
    destruct (prefixb sep (c :: s)) eqn:Hp.
    + rewrite py_join_cons by apply split_go_ne. rewrite IH. cbn [rev app].
      f_equal. destruct sep as [|a sep']; [done|].
      cbn in Hp |- *. unfold ascii_eqb in Hp.
      destruct (ascii_dec a c) as [->|]; [|done]. cbn in Hp.
      rewrite Nat.sub_0_r. f_equal. by apply prefixb_app_skipn.
    + rewrite IH. cbn. by rewrite <- app_assoc.
Qed.

(** X9: splitting on the separator loses nothing: joining the blocks
    back with [FILE_SEPARATOR] gives the response text again. *)
Theorem split_blocks_join (response_text : pystr) :
  py_join FILE_SEPARATOR (py_split response_text FILE_SEPARATOR) = response_text.
Proof. unfold py_split. rewrite split_go_join by discriminate. reflexivity. Qed.

Lemma lstrip_hd s a : hd_error (lstrip s) = Some a -> is_space a = false.
Proof.
  induction s as [|b s IH]; cbn; [discriminate|].
  destruct (is_space b) eqn:E; [exact IH|]. by intros [= <-].
Qed.

Lemma lstrip_suffix s : exists pre, s = pre ++ lstrip s.
Proof.
  induction s as [|b s [pre IH]]; cbn; [by exists []|].
  destruct (is_space b); [exists (b :: pre); cbn; congruence|by exists []].
Qed.

(** [s.strip()] is a piece of [s] with no white space at either end. *)
Lemma py_strip_shape s :
  (exists pre post, s = pre ++ py_strip s ++ post) /\
  (forall a, hd_error (py_strip s) = Some a -> is_space a = false) /\
  (forall a, hd_error (rev (py_strip s)) = Some a -> is_space a = false).
Proof.
  unfold py_strip. set (t := lstrip s).
  destruct (lstrip_suffix s) as [pre1 H1]. fold t in H1.
  destruct (lstrip_suffix (rev t)) as [pre2 H2].
  assert (Ht : t = rev (lstrip (rev t)) ++ rev pre2)
    by (rewrite <- rev_app_distr, <- H2; symmetry; apply rev_involutive).
  split; [|split].
  - exists pre1, (rev pre2). rewrite H1 at 1. by rewrite <- Ht.
  - intros a Ha. apply (lstrip_hd s). fold t. rewrite Ht.
    destruct (rev (lstrip (rev t))); [discriminate|exact Ha].
  - intros a. rewrite rev_involutive. apply lstrip_hd.
Qed.

Lemma infix_trans (l1 l2 l3 : pystr) :
  (exists a b, l2 = a ++ l1 ++ b) -> (exists a b, l3 = a ++ l2 ++ b) ->
  exists a b, l3 = a ++ l1 ++ b.
Proof.
  intros (a1 & b1 & ->) (a2 & b2 & ->). exists (a2 ++ a1), (b1 ++ b2).
  by rewrite !app_assoc.
Qed.

Lemma skipn_infix (l : pystr) n : exists a b, l = a ++ skipn n l ++ b.
Proof. exists (firstn n l), []. by rewrite app_nil_r, firstn_skipn. Qed.

Lemma firstn_infix (l : pystr) n : exists a b, l = a ++ firstn n l ++ b.
Proof. exists [], (skipn n l). by rewrite firstn_skipn. Qed.

(** X10: what [parse_and_write_files] would write for a block is a
    contiguous piece of the block (the fence handling only cuts text
    off), and it neither starts nor ends with white space. *)
Theorem clean_content_shape (block : pystr) (content_start_index : nat) :
  (exists pre post, block = pre ++ clean_content block content_start_index ++ post) /\
  (forall a, hd_error (clean_content block content_start_index) = Some a -> is_space a = false) /\
  (forall a, hd_error (rev (clean_content block content_start_index)) = Some a ->
             is_space a = false).
Proof.
  unfold clean_content.
  set (c1 := py_strip (skipn content_start_index block)).
  set (c2 := if py_startswith c1 fence then _ else c1).
  set (c3 := if py_endswith c2 fence then _ else c2).
  destruct (py_strip_shape c3) as (H3 & Hhd & Hlast).
  split; [|split; assumption].
  apply (infix_trans _ c3); [exact H3|].
  apply (infix_trans _ c2); [unfold c3; destruct (py_endswith c2 fence);
                             [apply firstn_infix|by exists [], []; rewrite app_nil_r]|].
  apply (infix_trans _ c1); [unfold c2; destruct (py_startswith c1 fence);
                             [apply skipn_infix|by exists [], []; rewrite app_nil_r]|].
  apply (infix_trans _ (skipn content_start_index block));
    [apply (proj1 (py_strip_shape _))|apply skipn_infix].
Qed.

(** ** [Path.mkdir] and [Path.write_text] *)

Lemma only_new_dirs_refl fs : only_new_dirs fs fs.
Proof. intros k. by left. Qed.

Lemma only_new_dirs_trans fs1 fs2 fs3 :
  only_new_dirs fs1 fs2 -> only_new_dirs fs2 fs3 -> only_new_dirs fs1 fs3.
Proof.
  intros H12 H23 k. destruct (H12 k) as [E12|[E1 E2]]; destruct (H23 k) as [E23|[E2' E3]].
  - left. congruence.
  - right. split; congruence.
  - right. split; congruence.
  - congruence.
Qed.

Lemma os_mkdir_new_dirs cwd fs fs' p :
  os_mkdir cwd fs p = inl fs' -> only_new_dirs fs fs'.
Proof.
  unfold os_mkdir. destruct (p_rparts p) as [|last init]; [discriminate|].
  destruct (lookup_dir _ _ _) as [d|]; [|discriminate].
  case_bool_decide; [discriminate|].
  destruct (fs !! (d ++ [last])) eqn:Hn; [discriminate|].
  intros [= <-] k. destruct (decide (k = d ++ [last])) as [->|Hk].
  - right. by rewrite lookup_insert_eq.
  - left. by rewrite lookup_insert_ne by congruence.
Qed.

Lemma pl_mkdir_single_new_dirs cwd fs fs' p ok :
  pl_mkdir_single cwd fs p ok = inl fs' -> only_new_dirs fs fs'.
Proof.
  unfold pl_mkdir_single. destruct (os_mkdir cwd fs p) as [fs1|[]] eqn:E;
    try (intros [= <-]; apply (os_mkdir_new_dirs _ _ _ _ E)); try discriminate;
    destruct (ok && path_is_dir cwd fs p); intros H; inversion H; subst; apply only_new_dirs_refl.
Qed.

(** [mkdir(parents=True)] only ever adds directories, whether it
    succeeds or fails part-way. *)
Lemma pl_mkdir_parents_new_dirs cwd fs ab rp ok :
  match pl_mkdir_parents cwd fs ab rp ok with
  | inl fs' | inr (_, fs') => only_new_dirs fs fs'
  end.
Proof.
  revert fs ok. induction rp as [|x par IH]; intros fs ok; cbn [pl_mkdir_parents];
    destruct (os_mkdir cwd fs _) as [fs1|[]] eqn:E; cbv beta iota;
    try exact (os_mkdir_new_dirs _ _ _ _ E);
    try (destruct (ok && path_is_dir cwd fs _); apply only_new_dirs_refl);
    try apply only_new_dirs_refl.
  specialize (IH fs true).
  destruct (pl_mkdir_parents cwd fs ab par true) as [fs2|[e fs2]]; [|exact IH].
  destruct (pl_mkdir_single cwd fs2 _ ok) eqn:Hs; [|exact IH].
  exact (only_new_dirs_trans _ _ _ IH (pl_mkdir_single_new_dirs _ _ _ _ _ Hs)).
Qed.

(** A failure part-way keeps what was created: for [m/../f/x.txt] with
    [m] missing and [f] a file, [mkdir(parents=True)] creates [m], then
    fails on [m/../f] with [FileExistsError]; [m] stays. *)
Lemma mkdir_failure_keeps_created :
  fst (write_generated_file (s2l "m/../f/x.txt") [] file_f_world) = Raise (OSError EEXIST) /\
  w_fs file_f_world !! [s2l "repo"; s2l "m"] = None /\
  w_fs (snd (write_generated_file (s2l "m/../f/x.txt") [] file_f_world))
    !! [s2l "repo"; s2l "m"] = Some Dir.
Proof. vm_compute. auto. Qed.

(** X11: whatever its outcome, writing one generated file changes the
    file system only by adding directories at free names and by storing
    the content at one target name, which was not a directory: no entry
    is removed and no other file is modified. *)
Theorem write_generated_file_footprint (file_path_str content : pystr) (w w' : world) r :
  write_generated_file file_path_str content w = (r, w') ->
  exists target, forall k,
    w_fs w' !! k = w_fs w !! k \/
    (w_fs w !! k = None /\ w_fs w' !! k = Some Dir) \/
    (k = target /\ w_fs w' !! k = Some (File content) /\ w_fs w !! k <> Some Dir).
Proof.
  unfold write_generated_file. set (p := path_of_str file_path_str). unfold_M.
  pose proof (pl_mkdir_parents_new_dirs (w_cwd w) (w_fs w) (p_abs (path_parent p))
    (p_rparts (path_parent p)) true) as Hmk.
  destruct (pl_mkdir_parents _ _ _ _ true) as [fsm|[e fse]];
    [|intros [= <- <-]; exists []; intros k; cbn; destruct (Hmk k); tauto].
  cbn [w_cwd w_fs set_fs].
  destruct (os_write_text (w_cwd w) fsm p content) as [fs2|e] eqn:Hwr;
    [|intros [= <- <-]; exists []; intros k; cbn; destruct (Hmk k); tauto].
  intros [= <- <-]. cbn.
  unfold os_write_text in Hwr.
  destruct (p_rparts p) as [|last init]; [discriminate|].
  destruct (lookup_dir _ _ _) as [d|]; [|discriminate].
  case_bool_decide; [discriminate|].
  assert (Hfs2 : fs2 = <[d ++ [last] := File content]> fsm /\ fsm !! (d ++ [last]) <> Some Dir)
    by (destruct (fsm !! (d ++ [last])) as [[|]|]; split; congruence).
  destruct Hfs2 as [-> Hnd].
  exists (d ++ [last]). intros k. destruct (decide (k = d ++ [last])) as [->|Hk].
  - right; right. rewrite lookup_insert_eq. repeat split.
    destruct (Hmk (d ++ [last])) as [E|[E _]]; rewrite <- ?E; [exact Hnd|congruence].
  - rewrite lookup_insert_ne by congruence. destruct (Hmk k); tauto.
Qed.

Lemma write_generated_file_footprint_witness :
  exists target, forall k,
    w_fs example_written !! k = w_fs example_world !! k \/
    (w_fs example_world !! k = None /\ w_fs example_written !! k = Some Dir) \/
    (k = target /\ w_fs example_written !! k = Some (File (s2l "hello")) /\
     w_fs example_world !! k <> Some Dir).
Proof.
  apply (write_generated_file_footprint example_path (s2l "hello") example_world example_written
           (Ret tt)).
  vm_compute. reflexivity.
Defined.

(** ** The path pattern *)

(** X12: with [re.MULTILINE], a declaration is only found at the start
    of a line: every match of the path pattern starts at the beginning
    of the block or right after a newline. *)
Theorem declaration_at_line_start (block : pystr) mo :
  re_search file_path_pattern block = Some mo ->
  m_start mo = 0 \/ nth_error block (m_start mo - 1) = Some nl.
Proof.
  unfold re_search. intros H. apply search_go_some in H as [s H].
  assert (Hs : m_start mo = s).
  { apply mt_cont in H as (j & c & Hk). by injection Hk as <-. }
  rewrite Hs. unfold file_path_pattern in H. rewrite mt_seq in H. cbn [mt] in H.
  destruct s as [|s]; [by left|]. right.
  case_bool_decide as Hnl; [|discriminate]. by rewrite Nat.sub_1_r.
Qed.

Lemma declaration_at_line_start_witness :
  m_start {| m_start := 2; m_end := 17; m_caps := [(1, (17, 17))] |} = 0 \/
  nth_error (s2l "x
  # FILE_PATH: a/b.txt
hi") (m_start {| m_start := 2; m_end := 17; m_caps := [(1, (17, 17))] |} - 1) = Some nl.
Proof. apply declaration_at_line_start. vm_compute. reflexivity. Defined.

(** ** Which exceptions escape *)

Section Raises.
Variable P : pyexc -> Prop.

Lemma raises_ret {A} (a : A) : raises_within P (mret a).
Proof. intros w e [=]. Qed.
Lemma raises_print l : raises_within P (print l).
Proof. intros w e [=]. Qed.
Lemma raises_sys_exit {A} c : raises_within P (@sys_exit A c).
Proof. intros w e [=]. Qed.
Lemma raises_raise {A} e : P e -> raises_within P (@raise A e).
Proof. intros He w e' [= <-]. exact He. Qed.
Lemma raises_bind {A B} (m : M A) (f : A -> M B) :
  raises_within P m -> (forall a, raises_within P (f a)) -> raises_within P (m ≫= f).
Proof.
  intros Hm Hf w e. rewrite mbind_unfold. destruct (m w) as [[a|c|e'] w'] eqn:E; cbn.
  - apply Hf.
  - discriminate.
  - intros [= <-]. apply (Hm w). by rewrite E.
Qed.
Lemma raises_session_post q : raises_within P (session_post q).
Proof. intros w e [=]. Qed.
Lemma raises_fs_call f : (forall e, P (OSError e)) -> raises_within P (fs_call f).
Proof. intros He w e. unfold fs_call. destruct (f _ _); cbn; [discriminate|]. by intros [= <-]. Qed.

End Raises.

Lemma raises_try (P Q : pyexc -> Prop) {A} (m : M A) h :
  raises_within P m ->
  (forall e, P e -> h e = None -> Q e) ->
  (forall e k, h e = Some k -> raises_within Q k) ->
  raises_within Q (try_except m h).
Proof.
  intros Hm Hu Hh w e. unfold try_except. destruct (m w) as [[a|c|e'] w'] eqn:E; try discriminate.
  assert (He' : P e') by (apply (Hm w); by rewrite E).
  destruct (h e') as [k|] eqn:Eh; [apply (Hh _ _ Eh)|].
  intros [= <-]. by apply Hu.
Qed.

Lemma raises_weaken (P Q : pyexc -> Prop) {A} (m : M A) :
  (forall e, P e -> Q e) -> raises_within P m -> raises_within Q m.
Proof. intros HPQ Hm w e H. apply HPQ, (Hm w e H). Qed.

#[local] Hint Resolve raises_ret raises_print raises_sys_exit raises_session_post : pyrun.

Ltac raises_steps :=
  repeat (intros; cbv beta in *; first
    [ solve [eauto with pyrun]
    | match goal with H : Some _ = Some _ |- _ => injection H as <- end
    | match goal with H : None = Some _ |- _ => discriminate H end
    | simple apply raises_bind
    | simple apply raises_raise
    | match goal with |- context [match ?x with _ => _ end] => destruct x end ]).

Lemma py_get_raises d k dflt : raises_within extract_exc (py_get d k dflt).
Proof. unfold py_get, extract_exc. raises_steps; auto. Qed.

Lemma py_getitem0_raises v : raises_within extract_exc (py_getitem0 v).
Proof. unfold py_getitem0, extract_exc. raises_steps; eauto 10. Qed.

#[local] Hint Resolve py_get_raises py_getitem0_raises : pyrun.

Lemma call_llm_extract_raises d : raises_within extract_exc (call_llm_extract d).
Proof. unfold call_llm_extract. raises_steps; unfold extract_exc; eauto 10. Qed.

Lemma call_llm_request_raises p :
  raises_within (fun e => (exists r, e = RequestException r) \/ e = GoogleAuthError)
    (call_llm_request p).
Proof. unfold call_llm_request, raise_for_status, response_json. raises_steps; eauto. Qed.

(** Only an [AttributeError], a [TypeError] or a [GoogleAuthError] leaves
    [call_llm]. *)
Lemma call_llm_raises p :
  raises_within (fun e => e = AttributeError \/ e = TypeError \/ e = GoogleAuthError)
    (call_llm p).
Proof.
  unfold call_llm. apply raises_bind; [apply raises_print|intros _].
  apply raises_bind.
  - apply (raises_try _ _ _ _ (call_llm_request_raises p)).
    + intros e [[r ->]| ->]; [discriminate|auto].
    + intros e k Hk. unfold request_handler in Hk. destruct e; try discriminate.
      injection Hk as <-. raises_steps.
  - intros d. apply (raises_try _ _ _ _ (call_llm_extract_raises d)).
    + intros e He Hn. unfold extract_exc in He.
      destruct He as [->|[->|[->|[->|[msg ->]]]]]; auto; discriminate.
    + intros e k Hk. unfold parse_handler in Hk. destruct e; try discriminate;
        injection Hk as <-; raises_steps.
Qed.

Lemma process_block_raises b :
  raises_within (fun e => e = AttributeError \/ e = TypeError \/ e = GoogleAuthError)
    (process_block b).
Proof.
  unfold process_block. raises_steps.
  apply (raises_try (fun _ => True)); [intros w e _; exact I|discriminate|].
  intros e k [= <-]. raises_steps.
Qed.

#[local] Hint Resolve call_llm_raises process_block_raises : pyrun.

Lemma for_blocks_raises bs :
  raises_within (fun e => e = AttributeError \/ e = TypeError \/ e = GoogleAuthError)
    (for_blocks bs).
Proof. induction bs; cbn [for_blocks]; raises_steps. Qed.

#[local] Hint Resolve for_blocks_raises : pyrun.

(** A failed credential refresh in [session.post] is not caught. *)
Lemma main_auth_failure_raises :
  fst (main auth_failure_world) = Raise GoogleAuthError.
Proof. vm_compute. reflexivity. Qed.



(** X14: [not os.getenv(...)] also rejects a variable set to the empty
    string: the script then prints the same error and exits with status
    1, having sent nothing and touched nothing. *)
Theorem empty_env_exits (w : world) :
  w_title w = Some [] \/ w_body w = Some [] \/ w_project w = Some [] ->
  run_script w = (1%Z, add_out (LStr missing_env_message) w).
Proof.
  intros H.
  assert (Hm : env_missing (w_title w) || env_missing (w_body w) || env_missing (w_project w) = true)
    by (destruct H as [ -> | [ -> | -> ] ]; cbn; rewrite ?orb_true_r; reflexivity).
  unfold run_script, main. rewrite Hm. reflexivity.
Qed.

Lemma empty_env_exits_witness :
  run_script empty_title_world = (1%Z, add_out (LStr missing_env_message) empty_title_world).
Proof. apply empty_env_exits. left. reflexivity. Defined.

Lemma prefixb_app_r p l y : prefixb p l = true -> prefixb p (l ++ y) = true.
Proof.
  revert l. induction p as [|a p IH]; intros [|b l]; cbn; try done.
  destruct (ascii_eqb a b); cbn; [apply IH|done].
Qed.

Lemma prefixb_nil_r p : p <> [] -> prefixb p [] = false.
Proof. by destruct p. Qed.

Lemma split_go_no_sep sep s skip cur :
  sep <> [] ->
  (forall i, i < length cur -> prefixb sep (skipn i (rev cur) ++ s) = false) ->
  (skip <> 0 -> cur = []) ->
  forall b, In b (split_go sep s skip cur) -> forall i, prefixb sep (skipn i b) = false.
Proof.
  intros Hsep. revert skip cur. induction s as [|c s IH]; intros skip cur Hcur Hskip.
  - cbn. intros b [<-|[]] i. destruct (Nat.lt_ge_cases i (length cur)) as [Hi|Hi].
    + specialize (Hcur i Hi). by rewrite app_nil_r in Hcur.
    + rewrite skipn_all2 by (rewrite length_rev; lia). by apply prefixb_nil_r.
  - destruct skip as [|k]; cbn [split_go].
    + destruct (prefixb sep (c :: s)) eqn:Hp.
      * intros b [<-|Hb].
        -- intros i. destruct (Nat.lt_ge_cases i (length cur)) as [Hi|Hi].
           ++ specialize (Hcur i Hi). destruct (prefixb sep (skipn i (rev cur))) eqn:E; [|done].
              by rewrite (prefixb_app_r _ _ _ E) in Hcur.
           ++ rewrite skipn_all2 by (rewrite length_rev; lia). by apply prefixb_nil_r.
        -- revert Hb. apply IH; [cbn; lia|done].
      * apply IH; [|done]. intros i Hi. cbn [rev]. cbn [length] in Hi.
        destruct (Nat.lt_ge_cases i (length cur)) as [Hi'|Hi'].
        -- rewrite skipn_app, length_rev. replace (i - length cur) with 0 by lia.
           cbn [skipn]. rewrite <- app_assoc. cbn [app]. exact (Hcur i Hi').
        -- replace i with (length (rev cur)) by (rewrite length_rev; lia).
           rewrite skipn_app, skipn_all, Nat.sub_diag. exact Hp.
    + rewrite (Hskip ltac:(done)). apply IH; [cbn; lia|done].
Qed.

(** X15: the split cuts at every occurrence of the separator: no block
    handed to the loop contains [FILE_SEPARATOR]. *)
Theorem blocks_free_of_separator (response_text b : pystr) :
  In b (py_split response_text FILE_SEPARATOR) ->
  ~ exists pre post, b = pre ++ FILE_SEPARATOR ++ post.
Proof.
  intros Hin (pre & post & ->).
  pose proof (split_go_no_sep FILE_SEPARATOR response_text 0 [] ltac:(discriminate)
                ltac:(cbn; lia) ltac:(done) _ Hin (length pre)) as H.
  rewrite skipn_app, skipn_all, Nat.sub_diag, skipn_O in H. cbn [app] in H.
  by rewrite (prefixb_app_r FILE_SEPARATOR FILE_SEPARATOR post) in H by (vm_compute; reflexivity).
Qed.

Lemma blocks_free_of_separator_witness :
  ~ exists pre post, s2l "tail" = pre ++ FILE_SEPARATOR ++ post.
Proof.
  apply (blocks_free_of_separator declared_text).
  vm_compute. right. right. left. reflexivity.
Defined.
